(** * Batch OTF-to-TTF converter: a shallow embedding and its properties

    The program is one Python module.  It lists a directory, keeps the
    names ending in [.otf], runs the external [otf2ttf] executable on each
    of them in a thread pool, prints a progress line per finished task and
    a final report.

    Conventions of the embedding:
    - a Python [str] is a list of Unicode code points ([list N]); literals
      are written in UTF-8 and decoded by [utf8];
    - a Python [int] is a [Z]; a Python [float] is an IEEE 754 binary64
      value ([spec_float] at precision 53); [pynum] joins the two, as the dictionary field ["time"] holds
      the integer [0] first and a float later;
    - the operating system is a record of primitives over an abstract
      [World]; every primitive returns the next world;
    - an exception is a value; a call returns [inl e] when it raises [e];
    - what the program writes to the terminal is a list of events that
      carry the data of each line; colour codes and the decimal rendering
      of numbers are left out;
    - the order in which the thread pool finishes its tasks is an input
      ([picks]), as are the worlds the workers run in. *)

From Stdlib Require Import String Ascii.
From Stdlib Require Import ZArith NArith List Bool Lia Permutation.
From Stdlib Require Import SpecFloat.
Import ListNotations.

Set Implicit Arguments.

(** ** Python strings *)

Module PyStr.

Definition str := list N.

Definition bytes_of (s : string) : list N :=
  map N_of_ascii (list_ascii_of_string s).

(** UTF-8 decoding of a well-formed byte sequence (one to four bytes per
    code point); a truncated tail is dropped. *)
Fixpoint utf8_decode (bs : list N) : str :=
  match bs with
  | [] => []
  | b0 :: r0 =>
    if (b0 <? 128)%N then b0 :: utf8_decode r0
    else match r0 with
    | [] => []
    | b1 :: r1 =>
      if (b0 <? 224)%N then
        ((b0 - 192) * 64 + (b1 - 128))%N :: utf8_decode r1
      else match r1 with
      | [] => []
      | b2 :: r2 =>
        if (b0 <? 240)%N then
          ((b0 - 224) * 4096 + (b1 - 128) * 64 + (b2 - 128))%N :: utf8_decode r2
        else match r2 with
        | [] => []
        | b3 :: r3 =>
          ((b0 - 240) * 262144 + (b1 - 128) * 4096 + (b2 - 128) * 64 + (b3 - 128))%N
            :: utf8_decode r3
        end
      end
    end
  end.

Definition utf8 (s : string) : str := utf8_decode (bytes_of s).

(** [str.isspace] for one code point: the characters [str.strip()] removes. *)
Definition isspace (c : N) : bool :=
  ((9 <=? c) && (c <=? 13) || (28 <=? c) && (c <=? 32)
   || (c =? 133) || (c =? 160) || (c =? 5760)
   || (8192 <=? c) && (c <=? 8202)
   || (c =? 8232) || (c =? 8233) || (c =? 8239) || (c =? 8287)
   || (c =? 12288))%N.

Fixpoint lstrip (s : str) : str :=
  match s with
  | [] => []
  | c :: s' => if isspace c then lstrip s' else s
  end.

Definition rstrip (s : str) : str := rev (lstrip (rev s)).

(** [s.strip()] *)
Definition strip (s : str) : str := rstrip (lstrip s).

Definition newline : N := 10%N.

(** [s.split('\n')]: the pieces between the separators; never an empty list. *)
Fixpoint split_newline (s : str) : list str :=
  match s with
  | [] => [[]]
  | c :: s' =>
    if (c =? newline)%N then [] :: split_newline s'
    else match split_newline s' with
         | [] => [[c]]
         | piece :: pieces => (c :: piece) :: pieces
         end
  end.

(** ['\n'.join(pieces)] *)
Fixpoint join_newline (pieces : list str) : str :=
  match pieces with
  | [] => []
  | [piece] => piece
  | piece :: rest => piece ++ newline :: join_newline rest
  end.

(** ASCII part of [str.lower]; no other code point lowers to a string
    ending in one of [.], [o], [t], [f], which is all [get_otf_files]
    asks of it. *)
Definition lower_char (c : N) : N :=
  if ((65 <=? c) && (c <=? 90))%N then (c + 32)%N else c.

Definition lower (s : str) : str := map lower_char s.

Fixpoint startswith (s prefix : str) : bool :=
  match prefix, s with
  | [], _ => true
  | _ :: _, [] => false
  | p :: prefix', c :: s' => (c =? p)%N && startswith s' prefix'
  end.

(** [s.endswith(suffix)] *)
Definition endswith (s suffix : str) : bool :=
  startswith (rev s) (rev suffix).

(** [fill * n] for a string [fill] and an integer [n] (empty when [n <= 0]). *)
Definition repeat_str (fill : str) (n : Z) : str :=
  concat (repeat fill (Z.to_nat n)).

End PyStr.

Import PyStr.

(** ** Python numbers *)

Module PyNum.

(** Binary64: 53 bits of precision, exponents below 1024. *)
Definition prec : Z := 53.
Definition emax : Z := 1024.

Definition float : Type := spec_float.

Definition fzero : float := S754_zero false.
Definition fadd : float -> float -> float := SFadd prec emax.
Definition fsub : float -> float -> float := SFsub prec emax.
Definition fmul : float -> float -> float := SFmul prec emax.
Definition fdiv : float -> float -> float := SFdiv prec emax.
Definition feqb : float -> float -> bool := SFeqb.
Definition fltb : float -> float -> bool := SFltb.

(** Neither a zero nor a NaN. *)
Definition is_nonzero (x : float) : bool :=
  match x with
  | S754_finite _ _ _ | S754_infinity _ => true
  | _ => false
  end.

Inductive pynum :=
| PInt (z : Z)
| PFloat (f : float).

(** [float(z)]: the nearest binary64 value, ties to even (infinite where
    Python raises [OverflowError], from 2^1024 on). *)
Definition float_of_Z (z : Z) : float := binary_normalize prec emax z 0 false.

Definition to_float (x : pynum) : float :=
  match x with
  | PInt z => float_of_Z z
  | PFloat f => f
  end.

(** [x + y] *)
Definition add (x y : pynum) : pynum :=
  match x, y with
  | PInt a, PInt b => PInt (a + b)
  | _, _ => PFloat (fadd (to_float x) (to_float y))
  end.

(** [x == 0] *)
Definition is_zero (x : pynum) : bool :=
  match x with
  | PInt z => (z =? 0)%Z
  | PFloat f => feqb f fzero
  end.

(** [x > 0] *)
Definition gt0 (x : pynum) : bool :=
  match x with
  | PInt z => (0 <? z)%Z
  | PFloat f => fltb fzero f
  end.

(** The quotient of [x / y] for a divisor that is not zero.  Two integers
    are divided as floats, which is Python's correctly rounded quotient
    whenever both are below 2^53 in absolute value. *)
Definition quotient (x y : pynum) : pynum :=
  PFloat (fdiv (to_float x) (to_float y)).

End PyNum.

Import PyNum.

(** ** Exceptions *)

Inductive exn_class :=
| FileNotFoundError
| NotADirectoryError
| PermissionError
| OSError
| ValueError
| KeyError
| TypeError
| ZeroDivisionError
| MemoryError
| KeyboardInterrupt
| SystemExit.

Record exn := mkExn { exn_class_of : exn_class; exn_str : str }.

(** [isinstance(e, Exception)]: all classes but the two that derive from
    [BaseException] only. *)
Definition is_Exception (e : exn) : bool :=
  match exn_class_of e with
  | KeyboardInterrupt | SystemExit => false
  | _ => true
  end.

(** [x / y] *)
Definition truediv (x y : pynum) : exn + pynum :=
  if PyNum.is_zero y
  then inl (mkExn ZeroDivisionError
              (match x, y with
               | PInt _, PInt _ => utf8 "division by zero"
               | _, _ => utf8 "float division by zero"
               end))
  else inr (PyNum.quotient x y).

(** ** The operating system *)

(** [subprocess.CompletedProcess], with the output captured as text. *)
Record CompletedProcess := mkCompletedProcess {
  returncode : Z;
  stdout : str;
  stderr : str
}.

(** The library calls the program makes.  Each one may change the world
    (other threads and processes run meanwhile). *)
Record OS (World : Type) := mkOS {
  time_time : World -> float * World;
  datetime_now : World -> str * World;
  os_system : str -> World -> World;
  os_listdir : str -> World -> (exn + list str) * World;
  os_path_isfile : str -> World -> bool * World;
  os_path_exists : str -> World -> bool * World;
  os_path_join : str -> str -> str;
  os_path_basename : str -> str;
  os_cpu_count : World -> option N * World;
  subprocess_run : list str -> World -> (exn + CompletedProcess) * World
}.

(** ** Conversion results *)

(** The dictionary [{"filename": ..., "success": ..., "error": ..., "time": ...}]. *)
Record ConversionResult := mkResult {
  filename : str;
  success : bool;
  error : str;
  time : pynum
}.

Definition set_success (b : bool) (r : ConversionResult) : ConversionResult :=
  mkResult (filename r) b (error r) (time r).

Definition set_error (e : str) (r : ConversionResult) : ConversionResult :=
  mkResult (filename r) (success r) e (time r).

Definition set_time (t : pynum) (r : ConversionResult) : ConversionResult :=
  mkResult (filename r) (success r) (error r) t.

(** ** Statements of a function body

    A statement runs on the local dictionary [result] and the world, and
    completes normally (with a value), by [return result], or by raising. *)

Module Stmt.

Inductive completion (A : Type) :=
| Normal (a : A)
| Return
| Throw (e : exn).

Arguments Return {A}.
Arguments Throw {A} e.

Section WithWorld.
Variable World : Type.

Definition state : Type := ConversionResult * World.

Definition stmt (A : Type) : Type := state -> completion A * state.

Definition bind {A B} (m : stmt A) (k : A -> stmt B) : stmt B :=
  fun s =>
    match m s with
    | (Normal a, s') => k a s'
    | (Return, s') => (Return, s')
    | (Throw e, s') => (Throw e, s')
    end.

(** [return result] *)
Definition return_result {A} : stmt A := fun s => (Return, s).

(** A library call that cannot raise. *)
Definition call {A} (f : World -> A * World) : stmt A :=
  fun s => let (a, w) := f (snd s) in (Normal a, (fst s, w)).

(** A library call that may raise. *)
Definition call_exn {A} (f : World -> (exn + A) * World) : stmt A :=
  fun s =>
    match f (snd s) with
    | (inr a, w) => (Normal a, (fst s, w))
    | (inl e, w) => (Throw e, (fst s, w))
    end.

(** [result[...] = ...] *)
Definition assign (f : ConversionResult -> ConversionResult) : stmt unit :=
  fun s => (Normal tt, (f (fst s), snd s)).

(** [try: body  except Exception as e: handler e] *)
Definition try_except {A} (body : stmt A) (handler : exn -> stmt A) : stmt A :=
  fun s =>
    match body s with
    | (Throw e, s') => if is_Exception e then handler e s' else (Throw e, s')
    | other => other
    end.

(** [try: body  finally: final].  The [finally] block always runs; when it
    completes by [return] or by raising, that replaces the completion of
    the body, pending exception included. *)
Definition try_finally {A} (body : stmt A) (final : stmt unit) : stmt A :=
  fun s =>
    let (c, s') := body s in
    match final s' with
    | (Normal _, s'') => (c, s'')
    | (Return, s'') => (Return, s'')
    | (Throw e, s'') => (Throw e, s'')
    end.

(** A call of a function whose body is [body] and whose [return]
    statements all return the dictionary: the value is [None] when the
    body runs off its end. *)
Definition run_function (body : stmt unit) (s : state)
  : (exn + option ConversionResult) * World :=
  match body s with
  | (Normal _, (_, w)) => (inr None, w)
  | (Return, (r, w)) => (inr (Some r), w)
  | (Throw e, (_, w)) => (inl e, w)
  end.

End WithWorld.

Arguments return_result {World A}.
Arguments assign {World} f.

End Stmt.

Import Stmt.

Declare Scope stmt_scope.
Delimit Scope stmt_scope with stmt.
Notation "x <- m ;; k" := (Stmt.bind m (fun x => k))
  (at level 100, m at next level, right associativity) : stmt_scope.
Notation "m ;; k" := (Stmt.bind m (fun _ => k))
  (at level 100, right associativity) : stmt_scope.

(** ** convert_otf_to_ttf *)

Section Converter.
Context {World : Type} (os : OS World).

(** What a call of a function of the program returns: the exception it
    raised, or its value ([None] or a result dictionary). *)
Definition call_outcome : Type := exn + option ConversionResult.

(** [error_lines[-1] if error_lines else "未知错误"] *)
Definition last_line_or_unknown (error_lines : list str) : str :=
  match error_lines with
  | [] => utf8 "未知错误"
  | _ :: _ => last error_lines []
  end.

Definition convert_body (file_path : str) : stmt World unit :=
  (file_exists <- call (os_path_exists os file_path) ;;
   if negb file_exists then
     (assign (set_error (utf8 "文件不存在")) ;;
      return_result)
   else
     (process <- call_exn (subprocess_run os [utf8 "otf2ttf"; file_path]) ;;
      if (returncode process =? 0)%Z then
        assign (set_success true)
      else
        let error_lines := split_newline (strip (stderr process)) in
        assign (set_error (last_line_or_unknown error_lines))))%stmt.

Definition convert_handler (e : exn) : stmt World unit :=
  assign (set_error (utf8 "系统错误: " ++ exn_str e)).

Definition convert_finally (start_time : float) : stmt World unit :=
  (now <- call (time_time os) ;;
   assign (set_time (PFloat (fsub now start_time))) ;;
   return_result)%stmt.

Definition convert_otf_to_ttf (file_path : str) (w : World)
  : call_outcome * World :=
  let (start_time, w1) := time_time os w in
  let filename := os_path_basename os file_path in
  let result := mkResult filename false [] (PInt 0) in
  run_function
    (try_finally
       (try_except (convert_body file_path) convert_handler)
       (convert_finally start_time))
    (result, w1).

(** *** Points of a call, for the statements below *)

(** The world in which the [try] block starts: the clock has been read. *)
Definition world_in_try (w : World) : World := snd (time_time os w).

(** The world when the [finally] block starts. *)
Definition world_at_finally (file_path : str) (w : World) : World :=
  let (file_exists, w2) := os_path_exists os file_path (world_in_try w) in
  if file_exists
  then snd (subprocess_run os [utf8 "otf2ttf"; file_path] w2)
  else w2.

(** The elapsed time every path writes into the result. *)
Definition elapsed (file_path : str) (w : World) : pynum :=
  PFloat (fsub (fst (time_time os (world_at_finally file_path w)))
               (fst (time_time os w))).

End Converter.

(** ** The main thread: world, exceptions and terminal output *)

(** One event per piece of terminal output, and one per use of the pool. *)
Inductive event :=
| EvNoFilesError
| EvBanner (directory : str) (total_files max_threads cpu_cores : Z) (started : str)
| EvPoolCreated (max_workers : Z)
| EvSubmitted (file : str)
| EvProgressBar (iteration total : Z) (percent : float) (bar : str) (newline : bool)
| EvResultLine (processed total : Z) (filename_display : str) (ok : bool)
               (elapsed : pynum) (error_excerpt : option str)
| EvReport (succeeded failed : Z) (total_duration : float)
           (avg_time_per_file files_per_second : pynum) (ended : str)
| EvFailureHeader
| EvFailureEntry (name message : str)
| EvFooter.

Module Py.

Section WithWorld.
Variable World : Type.

(** A computation of the main thread: it writes events, changes the world,
    and returns a value or raises.  What was written before an exception
    stays written. *)
Definition Py (A : Type) : Type := World -> (exn + A) * list event * World.

Definition ret {A} (a : A) : Py A := fun w => (inr a, [], w).

Definition raise {A} (e : exn) : Py A := fun w => (inl e, [], w).

Definition bind {A B} (m : Py A) (k : A -> Py B) : Py B :=
  fun w =>
    match m w with
    | (inr a, out, w') =>
        match k a w' with
        | (r, out', w'') => (r, out ++ out', w'')
        end
    | (inl e, out, w') => (inl e, out, w')
    end.

Definition emit (ev : event) : Py unit := fun w => (inr tt, [ev], w).

Definition call {A} (f : World -> A * World) : Py A :=
  fun w => let (a, w') := f w in (inr a, [], w').

Definition call_exn {A} (f : World -> (exn + A) * World) : Py A :=
  fun w => let (r, w') := f w in (r, [], w').

Definition lift {A} (r : exn + A) : Py A := fun w => (r, [], w).

(** [for x in xs: acc = body acc x] *)
Fixpoint for_each {A S} (xs : list A) (body : S -> A -> Py S) (acc : S) : Py S :=
  match xs with
  | [] => ret acc
  | x :: xs' => bind (body acc x) (for_each xs' body)
  end.

End WithWorld.

Arguments ret {World A} a.
Arguments raise {World A} e.
Arguments emit {World} ev.
Arguments lift {World A} r.

End Py.

Import Py.

Declare Scope py_scope.
Delimit Scope py_scope with py.
Notation "x <- m ;; k" := (Py.bind m (fun x => k))
  (at level 100, m at next level, right associativity) : py_scope.
Notation "m ;; k" := (Py.bind m (fun _ => k))
  (at level 100, right associativity) : py_scope.

(** ** print_progress_bar *)

(** [a // b] on integers *)
Definition floordiv (a b : Z) : exn + Z :=
  if (b =? 0)%Z
  then inl (mkExn ZeroDivisionError (utf8 "integer division or modulo by zero"))
  else inr (a / b)%Z.

Definition progress_length : Z := 50.
Definition progress_fill : str := utf8 "█".

(** The value formatted as [percent], and the bar, for the default
    [length] and [fill]; the event also records whether the closing
    [print()] happened. *)
Definition print_progress_bar (iteration total : Z) : exn + event :=
  match truediv (PInt iteration) (PFloat (float_of_Z total)) with
  | inl e => inl e
  | inr ratio =>
    let percent := fmul (float_of_Z 100) (to_float ratio) in
    match floordiv (progress_length * iteration) total with
    | inl e => inl e
    | inr filled_length =>
      let bar := repeat_str progress_fill filled_length
                 ++ repeat_str (utf8 "-") (progress_length - filled_length) in
      inr (EvProgressBar iteration total percent bar (iteration =? total)%Z)
    end
  end.

(** ** The thread pool *)

(** A future of the pool: an identity, and what [future.result()] does once
    the task is done (returns the task's value or raises its exception). *)
Record Future := mkFuture {
  fut_id : nat;
  fut_outcome : exn + option ConversionResult
}.

(** What the scheduler decides in one run: the order in which tasks
    finish ([picks]: at each step, which of the unfinished tasks comes
    next), the world each worker meets when it starts its task, and the
    world of the main thread once the pool has shut down. *)
Record Schedule (World : Type) := mkSchedule {
  picks : list nat;
  task_world : nat -> World;
  joined_world : World
}.

Definition remove_at {A} (i : nat) (l : list A) : list A :=
  firstn i l ++ skipn (S i) l.

(** [as_completed(pending)]: every pending future once, in finishing order.
    When [picks] runs out the rest finishes in submission order. *)
Fixpoint as_completed {A} (picks : list nat) (pending : list A) : list A :=
  match pending with
  | [] => []
  | first :: _ =>
    match picks with
    | [] => pending
    | k :: picks' =>
      let i := (k mod length pending)%nat in
      nth i pending first :: as_completed picks' (remove_at i pending)
    end
  end.

(** [future_to_file[future]]: the dictionary keeps insertion order and is
    keyed by the identity of the future. *)
Fixpoint dict_get (future_to_file : list (Future * str)) (future : Future)
  : exn + str :=
  match future_to_file with
  | [] => inl (mkExn KeyError [])
  | (key, file) :: rest =>
    if (fut_id key =? fut_id future)%nat then inr file
    else dict_get rest future
  end.

(** ** main *)

Definition TERMINAL_WIDTH : Z := 80.

Definition font_dir : str := utf8 "D:\Software\PotPlayer\otf".

(** The counters of [main]. *)
Record Stats := mkStats {
  success_count : Z;
  failed_count : Z;
  processed_count : Z;
  total_processing_time : pynum
}.

Section Main.
Context {World : Type} (os : OS World).
Variable IS_WINDOWS : bool.

Fixpoint keep_otf_files (directory : str) (names : list str) (w : World)
  : list str * World :=
  match names with
  | [] => ([], w)
  | f :: rest =>
    if endswith (lower f) (utf8 ".otf") then
      let path := os_path_join os directory f in
      let (is_file, w1) := os_path_isfile os path w in
      let (kept, w2) := keep_otf_files directory rest w1 in
      (if is_file then path :: kept else kept, w2)
    else keep_otf_files directory rest w
  end.

Definition get_otf_files (directory : str) (w : World)
  : (exn + list str) * World :=
  match os_listdir os directory w with
  | (inl e, w') => (inl e, w')
  | (inr names, w') =>
    let (files, w'') := keep_otf_files directory names w' in (inr files, w'')
  end.

(** [os.cpu_count() or 1] *)
Definition cpu_cores_of (detected : option N) : Z :=
  match detected with
  | None => 1
  | Some n => if (n =? 0)%N then 1 else Z.of_N n
  end.

(** [min(cpu_cores * 2, 32)] *)
Definition max_threads_of (cpu_cores : Z) : Z := Z.min (cpu_cores * 2) 32.

(** [{executor.submit(convert_otf_to_ttf, file): file for file in otf_files}]:
    task number [i] runs in the world the scheduler gives it. *)
Fixpoint submit_all (sched : Schedule World) (next_id : nat) (otf_files : list str)
  : list (Future * str) :=
  match otf_files with
  | [] => []
  | file :: rest =>
    (mkFuture next_id (fst (convert_otf_to_ttf os file (task_world sched next_id))), file)
      :: submit_all sched (S next_id) rest
  end.

(** [result = future.result()] under [except Exception as e]. *)
Definition result_or_wrapped (file_path : str) (future : Future)
  : exn + option ConversionResult :=
  match fut_outcome future with
  | inr value => inr value
  | inl e =>
    if is_Exception e then
      inr (Some (mkResult (os_path_basename os file_path) false
                          (utf8 "任务异常: " ++ exn_str e) (PInt 0)))
    else inl e
  end.

(** [result["filename"][:40] + (result["filename"][40:] and '..')] *)
Definition filename_display_of (name : str) : str :=
  firstn 40 name ++ match skipn 40 name with [] => [] | _ :: _ => utf8 ".." end.

(** One turn of [for future in as_completed(future_to_file)]. *)
Definition collect_one (total_files : Z) (future_to_file : list (Future * str))
    (st : Stats) (future : Future) : Py World Stats :=
  (file_path <- lift (dict_get future_to_file future) ;;
   let processed_count := (processed_count st + 1)%Z in
   value <- lift (result_or_wrapped file_path future) ;;
   match value with
   | None => raise (mkExn TypeError (utf8 "'NoneType' object is not subscriptable"))
   | Some result =>
     let success_count :=
       if success result then (success_count st + 1)%Z else success_count st in
     let failed_count :=
       if success result then failed_count st else (failed_count st + 1)%Z in
     let total_processing_time :=
       PyNum.add (total_processing_time st) (time result) in
     let filename_display := filename_display_of (filename result) in
     bar <- lift (print_progress_bar processed_count total_files) ;;
     emit bar ;;
     emit (EvResultLine processed_count total_files filename_display
             (success result) (time result)
             (if success result then None else Some (firstn 50 (error result)))) ;;
     ret (mkStats success_count failed_count processed_count total_processing_time)
   end)%py.

Definition collect_results (total_files : Z) (future_to_file : list (Future * str))
    (completed : list Future) : Py World Stats :=
  for_each completed (collect_one total_files future_to_file)
           (mkStats 0 0 0 (PInt 0)).

(** [total_processing_time / total_files if total_files > 0 else 0] *)
Definition avg_time_per_file_of (total_processing_time : pynum) (total_files : Z)
  : exn + pynum :=
  if (0 <? total_files)%Z then truediv total_processing_time (PInt total_files)
  else inr (PInt 0).

(** [success_count / total_duration if total_duration > 0 else 0] *)
Definition files_per_second_of (success_count : Z) (total_duration : float)
  : exn + pynum :=
  if PyNum.gt0 (PFloat total_duration)
  then truediv (PInt success_count) (PFloat total_duration)
  else inr (PInt 0).

(** One turn of [for future in future_to_file] in the failure list, under
    the bare [except: pass]. *)
Definition failure_entry (future : Future) : list event :=
  match fut_outcome future with
  | inr (Some result) =>
    if success result then []
    else [EvFailureEntry (filename result) (error result)]
  | inr None => []
  | inl _ => []
  end.

Definition failure_listing (failed_count : Z) (future_to_file : list (Future * str))
  : list event :=
  if (0 <? failed_count)%Z
  then EvFailureHeader :: flat_map failure_entry (map fst future_to_file)
  else [].

Fixpoint emit_all (evs : list event) : Py World unit :=
  match evs with
  | [] => ret tt
  | ev :: evs' => (emit ev ;; emit_all evs')%py
  end.

(** The [with ThreadPoolExecutor(...)] block: the pool is created, every
    file is submitted, the results are collected; leaving the block waits
    for the workers, whether the block ended normally or not. *)
Definition with_pool (sched : Schedule World) (max_threads total_files : Z)
    (otf_files : list str) : Py World (Stats * list (Future * str)) :=
  fun w =>
    let future_to_file := submit_all sched 0 otf_files in
    let block :=
      (emit (EvPoolCreated max_threads) ;;
       emit_all (map EvSubmitted otf_files) ;;
       stats <- collect_results total_files future_to_file
                  (as_completed (picks sched) (map fst future_to_file)) ;;
       ret (stats, future_to_file))%py in
    match block w with
    | (r, out, _) => (r, out, joined_world sched)
    end.

(** [if IS_WINDOWS: os.system('chcp 65001 > nul')] *)
Definition set_console_utf8 (w : World) : World :=
  if IS_WINDOWS then os_system os (utf8 "chcp 65001 > nul") w else w.

Definition main (sched : Schedule World) : Py World unit :=
  (call (fun w => (tt, set_console_utf8 w)) ;;
   otf_files <- call_exn (get_otf_files font_dir) ;;
   let total_files := Z.of_nat (length otf_files) in
   if (total_files =? 0)%Z then
     emit EvNoFilesError
   else
     detected <- call (os_cpu_count os) ;;
     let cpu_cores := cpu_cores_of detected in
     let max_threads := max_threads_of cpu_cores in
     started <- call (datetime_now os) ;;
     emit (EvBanner font_dir total_files max_threads cpu_cores started) ;;
     start_total_time <- call (time_time os) ;;
     pooled <- with_pool sched max_threads total_files otf_files ;;
     let stats := fst pooled in
     let future_to_file := snd pooled in
     end_total_time <- call (time_time os) ;;
     let total_duration := fsub end_total_time start_total_time in
     avg_time_per_file <-
       lift (avg_time_per_file_of (total_processing_time stats) total_files) ;;
     files_per_second <-
       lift (files_per_second_of (success_count stats) total_duration) ;;
     ended <- call (datetime_now os) ;;
     emit (EvReport (success_count stats) (failed_count stats) total_duration
             avg_time_per_file files_per_second ended) ;;
     emit_all (failure_listing (failed_count stats) future_to_file) ;;
     emit EvFooter)%py.

End Main.

(** ** Reading a run *)

(** Whether the main thread returned or raised, and what it wrote. *)
Definition status_of {A World : Type} (run : (exn + A) * list event * World)
  : exn + A := fst (fst run).

Definition trace_of {A World : Type} (run : (exn + A) * list event * World)
  : list event := snd (fst run).

(** The task behind a future returned a success dictionary. *)
Definition task_succeeded (future : Future) : bool :=
  match fut_outcome future with
  | inr (Some result) => success result
  | _ => false
  end.

(** [future.result()] returns a dictionary, or raises an [Exception]. *)
Definition well_behaved (future : Future) : Prop :=
  match fut_outcome future with
  | inr (Some _) => True
  | inr None => False
  | inl e => is_Exception e = true
  end.

(** The time the loop adds for a future: that of its dictionary, or the
    [0] of the dictionary built for an exception. *)
Definition consumed_time (future : Future) : pynum :=
  match fut_outcome future with
  | inr (Some result) => time result
  | _ => PInt 0
  end.

(** [total_processing_time] after the futures [completed], in that order. *)
Definition cumulative_time (completed : list Future) : pynum :=
  fold_left PyNum.add (map consumed_time completed) (PInt 0).

Definition is_result_line (ev : event) : bool :=
  match ev with
  | EvResultLine _ _ _ _ _ _ => true
  | _ => false
  end.

(** Uses of the pool: creating it and submitting to it. *)
Definition is_pool_event (ev : event) : bool :=
  match ev with
  | EvPoolCreated _ | EvSubmitted _ => true
  | _ => false
  end.

(** An event of the collection loop numbered within [(lo, hi]] of [total]. *)
Definition numbered_within (total lo hi : Z) (ev : event) : Prop :=
  match ev with
  | EvProgressBar i t percent bar newline =>
      t = total /\ (lo < i <= hi)%Z
      /\ print_progress_bar i t = inr ev /\ length bar = 50%nat
  | EvResultLine i t _ _ _ _ => t = total /\ (lo < i <= hi)%Z
  | _ => False
  end.

(** The failure entry of a result dictionary. *)
Definition entry_of (result : ConversionResult) : event :=
  EvFailureEntry (filename result) (error result).

(** The dictionaries returned by the futures, in order. *)
Definition returned_results (futures : list Future) : list ConversionResult :=
  flat_map (fun future => match fut_outcome future with
                          | inr (Some result) => [result]
                          | _ => []
                          end) futures.

(** ** A small concrete system

    The world is a clock in whole seconds.  Reading the clock takes a
    second, running the converter takes two.  A set-up fixes what the
    directory lists, which paths exist, what the converter does with each
    path and what CPU detection answers. *)

Module Toy.

Definition World : Type := Z.

Record Setup := mkSetup {
  listing : exn + list str;
  present : str -> bool;
  converter : str -> exn + CompletedProcess;
  cpus : option N
}.

Definition backslash : N := 92%N.

Fixpoint basename_from (acc path : str) : str :=
  match path with
  | [] => acc
  | c :: path' =>
    if (c =? backslash)%N then basename_from [] path'
    else basename_from (acc ++ [c]) path'
  end.

Definition toy_os (cfg : Setup) : OS World :=
  mkOS (fun w => (float_of_Z w, (w + 1)%Z))
       (fun w => (utf8 "2024-01-01 00:00:00", w))
       (fun _ w => w)
       (fun _ w => (listing cfg, w))
       (fun _ w => (true, w))
       (fun path w => (present cfg path, w))
       (fun directory f => directory ++ backslash :: f)
       (basename_from [])
       (fun w => (cpus cfg, w))
       (fun args w => (converter cfg (nth 1 args []), (w + 2)%Z)).

(** Task [i] starts at second [10 * i]; the pool is done at second 1000. *)
Definition toy_schedule (picks : list nat) : Schedule World :=
  mkSchedule picks (fun i => (10 * Z.of_nat i)%Z) 1000%Z.

Definition exited (code : Z) (err : str) : exn + CompletedProcess :=
  inr (mkCompletedProcess code [] err).

(** Two fonts convert, the third makes the converter exit with status 1
    and one line on its error stream. *)
Definition three_fonts : Setup :=
  mkSetup (inr [utf8 "a.otf"; utf8 "b.OTF"; utf8 "notes.txt"; utf8 "c.otf"])
          (fun _ => true)
          (fun path => if endswith path (utf8 "c.otf")
                       then exited 1 (utf8 "bad glyph table")
                       else exited 0 [])
          (Some 4%N).

(** The converter fails without writing anything to its error stream. *)
Definition silent_failure : Setup :=
  mkSetup (inr [utf8 "a.otf"]) (fun _ => true) (fun _ => exited 1 []) (Some 4%N).

(** The converter executable is not installed. *)
Definition no_converter : Setup :=
  mkSetup (inr [utf8 "a.otf"]) (fun _ => true)
          (fun _ => inl (mkExn FileNotFoundError (utf8 "[WinError 2] otf2ttf")))
          None.

(** The directory has no font in it. *)
Definition no_fonts : Setup :=
  mkSetup (inr [utf8 "notes.txt"]) (fun _ => true) (fun _ => exited 0 []) (Some 4%N).

(** The files [main] finds in the set-up [three_fonts]. *)
Definition three_paths : list str :=
  [utf8 "D:\Software\PotPlayer\otf\a.otf";
   utf8 "D:\Software\PotPlayer\otf\b.OTF";
   utf8 "D:\Software\PotPlayer\otf\c.otf"].

(** A dictionary with one future, whose task raised. *)
Definition raised_task : list (Future * str) :=
  [(mkFuture 0 (inl (mkExn MemoryError (utf8 "out of memory"))),
    utf8 "D:\Software\PotPlayer\otf\a.otf")].

(** The directory does not exist. *)
Definition no_directory : Setup :=
  mkSetup (inl (mkExn FileNotFoundError (utf8 "[WinError 3] D:\Software\PotPlayer\otf")))
          (fun _ => false) (fun _ => exited 0 []) (Some 4%N).

End Toy.

(** ** Terminal colours and print_header *)

Module Color.

Definition esc : N := 27%N.

Definition RED : str := esc :: utf8 "[91m".
Definition GREEN : str := esc :: utf8 "[92m".
Definition YELLOW : str := esc :: utf8 "[93m".
Definition CYAN : str := esc :: utf8 "[96m".
Definition MAGENTA : str := esc :: utf8 "[95m".
Definition BLUE : str := esc :: utf8 "[94m".
Definition BOLD : str := esc :: utf8 "[1m".
Definition UNDERLINE : str := esc :: utf8 "[4m".
Definition RESET : str := esc :: utf8 "[0m".

End Color.

(** [s.center(width, fillchar)]: when the padding is odd, the extra
    character goes to the left if [width] is odd and to the right if not. *)
Definition center (s : str) (width : Z) (fillchar : N) : str :=
  let marg := (width - Z.of_nat (length s))%Z in
  if (marg <=? 0)%Z then s
  else
    let left := (marg / 2 + Z.land (Z.land marg width) 1)%Z in
    repeat_str [fillchar] left ++ s ++ repeat_str [fillchar] (marg - left).

Definition space : N := 32%N.

(** The arguments of the three [print] calls of [print_header]. *)
Definition print_header (title : str) : list str :=
  [Color.BOLD ++ Color.CYAN ++ repeat_str (utf8 "=") TERMINAL_WIDTH ++ Color.RESET;
   Color.BOLD ++ Color.CYAN ++ center title TERMINAL_WIDTH space ++ Color.RESET;
   Color.BOLD ++ Color.CYAN ++ repeat_str (utf8 "=") TERMINAL_WIDTH ++ Color.RESET
     ++ [newline]].

(** ** Further notions for the statements *)

(** [f.lower().endswith('.otf')] *)
Definition matches_otf (f : str) : bool := endswith (lower f) (utf8 ".otf").

(** The same system with another [subprocess.run]. *)
Definition with_subprocess_run {World : Type} (os : OS World)
    (run : list str -> World -> (exn + CompletedProcess) * World) : OS World :=
  mkOS (time_time os) (datetime_now os) (os_system os) (os_listdir os)
       (os_path_isfile os) (os_path_exists os) (os_path_join os)
       (os_path_basename os) (os_cpu_count os) run.

(** [os.path.isfile] answers by a fixed table and leaves the world alone. *)
Definition stable_files {World : Type} (os : OS World) (is_file : str -> bool)
  : Prop :=
  forall path w, os_path_isfile os path w = (is_file path, w).

(** The iteration numbers of the progress bars of a trace, in order. *)
Definition bar_iterations (out : list event) : list Z :=
  flat_map (fun ev => match ev with
                      | EvProgressBar i _ _ _ _ => [i]
                      | _ => []
                      end) out.

(** The bars of a trace that closed the line (the 100% state). *)
Definition closing_bars (out : list event) : list Z :=
  flat_map (fun ev => match ev with
                      | EvProgressBar i _ _ _ true => [i]
                      | _ => []
                      end) out.

(** What a result line shows: its number, the displayed name, the mark,
    the time and the error excerpt. *)
Definition shown_lines (out : list event)
  : list (Z * str * bool * pynum * option str) :=
  flat_map (fun ev => match ev with
                      | EvResultLine i _ name ok elapsed excerpt =>
                          [(i, name, ok, elapsed, excerpt)]
                      | _ => []
                      end) out.

(** What the loop shows for a result dictionary taken as number [i]. *)
Definition line_of_result (i : Z) (result : ConversionResult)
  : Z * str * bool * pynum * option str :=
  (i, filename_display_of (filename result), success result, time result,
   if success result then None else Some (firstn 50 (error result))).

(** The entries of the failure list of a trace. *)
Definition failure_entries (out : list event) : list (str * str) :=
  flat_map (fun ev => match ev with
                      | EvFailureEntry name message => [(name, message)]
                      | _ => []
                      end) out.

(** The reports of a trace: successes and failures. *)
Definition reports (out : list event) : list (Z * Z) :=
  flat_map (fun ev => match ev with
                      | EvReport succeeded failed _ _ _ _ => [(succeeded, failed)]
                      | _ => []
                      end) out.

(** One element for each header of a failure list in a trace. *)
Definition failure_headers (out : list event) : list unit :=
  flat_map (fun ev => match ev with
                      | EvFailureHeader => [tt]
                      | _ => []
                      end) out.

Definition is_report (ev : event) : bool :=
  match ev with
  | EvReport _ _ _ _ _ _ => true
  | _ => false
  end.

(** The report blocks of a trace, whole. *)
Definition report_events (out : list event) : list event :=
  filter is_report out.

(** The files submitted to the pool, in order. *)
Definition submissions (out : list event) : list str :=
  flat_map (fun ev => match ev with
                      | EvSubmitted file => [file]
                      | _ => []
                      end) out.

(** [l] is [l'] with some elements left out, the order kept. *)
Inductive subsequence {A : Type} : list A -> list A -> Prop :=
| subsequence_nil : subsequence [] []
| subsequence_keep x l l' : subsequence l l' -> subsequence (x :: l) (x :: l')
| subsequence_drop x l l' : subsequence l l' -> subsequence l (x :: l').

(** The name and message of a result dictionary, as the failure list
    prints them. *)
Definition name_and_message (result : ConversionResult) : str * str :=
  (filename result, error result).

(** The failed dictionaries among those the futures returned. *)
Definition failed_results (futures : list Future) : list ConversionResult :=
  filter (fun result => negb (success result)) (returned_results futures).

(** The files a run of [main] found ([[]] when the listing raised). *)
Definition found_files {World : Type} (os : OS World) (IS_WINDOWS : bool)
    (w : World) : list str :=
  match fst (get_otf_files os font_dir (set_console_utf8 os IS_WINDOWS w)) with
  | inr files => files
  | inl _ => []
  end.

(** The futures of a run of [main], in submission order. *)
Definition futures_of {World : Type} (os : OS World) (IS_WINDOWS : bool)
    (sched : Schedule World) (w : World) : list Future :=
  map fst (submit_all os sched 0 (found_files os IS_WINDOWS w)).

(** A set-up in which both fonts of the directory convert. *)
Definition healthy_setup : Toy.Setup :=
  Toy.mkSetup (inr [utf8 "a.otf"; utf8 "b.otf"]) (fun _ => true)
              (fun _ => Toy.exited 0 []) (Some 2%N).

(** [1, 2, ..., n] shifted by [start]. *)
Definition numbers_from (start : Z) (n : nat) : list Z :=
  map (fun k => (start + Z.of_nat k)%Z) (seq 1 n).

(** * Properties *)

(** ** Floats: an integer above zero converts to a float that is not zero *)

Module FloatFacts.

Local Open Scope Z_scope.

Lemma digits2_pos_size p : digits2_pos p = Pos.size p.
Proof. induction p; simpl; congruence. Qed.

Lemma Zdigits2_log2 m : 0 < m -> Zdigits2 m = Z.log2 m + 1.
Proof.
  destruct m as [|p|p]; try lia. intros _. simpl.
  rewrite digits2_pos_size.
  induction p; simpl; lia.
Qed.

Lemma iter_pos_nat {A} (f : A -> A) n x :
  iter_pos f n x = Nat.iter (Pos.to_nat n) f x.
Proof.
  revert x. induction n; intros x.
  - change (iter_pos f n~1 x) with (iter_pos f n (iter_pos f n (f x))).
    rewrite !IHn, Pos2Nat.inj_xI, <- Nat.iter_add, <- Nat.iter_succ_r.
    f_equal. lia.
  - change (iter_pos f n~0 x) with (iter_pos f n (iter_pos f n x)).
    rewrite !IHn, Pos2Nat.inj_xO, <- Nat.iter_add. f_equal. lia.
  - reflexivity.
Qed.

Lemma shr_1_m mrs : 0 <= shr_m mrs -> shr_m (shr_1 mrs) = Z.div2 (shr_m mrs).
Proof.
  destruct mrs as [m r s]. simpl.
  destruct m as [|[p|p|]|p]; simpl; try reflexivity; lia.
Qed.

Lemma shr_iter_m n mrs :
  0 <= shr_m mrs ->
  shr_m (Nat.iter n shr_1 mrs) = Z.shiftr (shr_m mrs) (Z.of_nat n).
Proof.
  intros H. induction n.
  - reflexivity.
  - rewrite Nat2Z.inj_succ. simpl Nat.iter. rewrite shr_1_m.
    + rewrite IHn, Z.div2_spec, Z.shiftr_shiftr by lia. reflexivity.
    + rewrite IHn. apply Z.shiftr_nonneg. exact H.
Qed.

(** Shifting out fewer bits than the mantissa has leaves it above zero. *)
Lemma shr_m_pos mrs e n :
  0 < shr_m mrs -> n < Z.log2 (shr_m mrs) + 1 ->
  0 < shr_m (fst (shr mrs e n)) /\ e <= snd (shr mrs e n).
Proof.
  intros Hm Hn. unfold shr. destruct n as [|p|p]; simpl; try (split; lia).
  rewrite iter_pos_nat, shr_iter_m by lia.
  rewrite positive_nat_Z. split; [|lia].
  rewrite Z.shiftr_div_pow2 by lia.
  apply Z.div_str_pos. split; [apply Z.pow_pos_nonneg; lia|].
  apply Z.log2_le_pow2; lia.
Qed.

Lemma shr_record_of_loc_m m l : shr_m (shr_record_of_loc m l) = m.
Proof. destruct l as [|[]]; reflexivity. Qed.

Lemma shr_fexp_pos m e l :
  0 < m -> emin prec emax <= e ->
  0 < shr_m (fst (shr_fexp prec emax m e l))
  /\ e <= snd (shr_fexp prec emax m e l).
Proof.
  intros Hm He. unfold shr_fexp. apply shr_m_pos.
  - rewrite shr_record_of_loc_m. exact Hm.
  - rewrite shr_record_of_loc_m, (@Zdigits2_log2 m Hm).
    unfold fexp. pose proof (Z.log2_nonneg m). unfold prec in *. lia.
Qed.

Lemma round_nearest_even_ge m l : m <= round_nearest_even m l.
Proof. destruct l as [|[]]; simpl; try lia. destruct (Z.even m); lia. Qed.

Lemma binary_round_aux_nonzero sx mx ex lx :
  0 < mx -> emin prec emax <= ex ->
  is_nonzero (binary_round_aux prec emax sx mx ex lx) = true.
Proof.
  intros Hm He. unfold binary_round_aux.
  destruct (@shr_fexp_pos mx ex lx Hm He) as [H1 H2].
  destruct (shr_fexp prec emax mx ex lx) as [mrs' e'] eqn:E1. simpl in H1, H2.
  pose proof (round_nearest_even_ge (shr_m mrs') (loc_of_shr_record mrs')) as Hr.
  destruct (@shr_fexp_pos (round_nearest_even (shr_m mrs') (loc_of_shr_record mrs'))
              e' loc_Exact) as [H3 H4]; try lia.
  destruct (shr_fexp prec emax _ e' loc_Exact) as [mrs'' e''] eqn:E2.
  simpl in H3, H4.
  destruct (shr_m mrs'') as [|p|p]; try lia.
  destruct (e'' <=? emax - prec); reflexivity.
Qed.

Lemma float_of_Z_nonzero z : 0 < z -> is_nonzero (float_of_Z z) = true.
Proof.
  intros Hz. destruct z as [|p|p]; try lia.
  unfold float_of_Z, binary_normalize, binary_round.
  destruct (shl_align p 0 (fexp prec emax (Z.pos (digits2_pos p) + 0)))
    as [mz ez] eqn:E.
  apply binary_round_aux_nonzero; [lia|].
  unfold shl_align in E.
  destruct (fexp prec emax (Z.pos (digits2_pos p) + 0) - 0) eqn:E';
    inversion E; subst; try (vm_compute; discriminate).
  unfold fexp. lia.
Qed.

Lemma is_nonzero_feqb x : is_nonzero x = true -> feqb x fzero = false.
Proof. destruct x as [s|s| |s m e]; try discriminate; destruct s; reflexivity. Qed.

(** [x > 0] excludes [x == 0]. *)
Lemma fltb_zero_not_zero x : fltb fzero x = true -> feqb x fzero = false.
Proof.
  destruct x as [s|s| |s m e]; try discriminate;
    destruct s; try discriminate; reflexivity.
Qed.

(** [x == 0] excludes [x > 0]. *)
Lemma feqb_zero_not_gt x : feqb x fzero = true -> fltb fzero x = false.
Proof.
  destruct x as [s|s| |s m e]; try discriminate;
    destruct s; try discriminate; reflexivity.
Qed.

Lemma float_of_Z_pos_not_zero z :
  0 < z -> PyNum.is_zero (PFloat (float_of_Z z)) = false.
Proof. intros H. apply is_nonzero_feqb, float_of_Z_nonzero, H. Qed.

End FloatFacts.

(** ** Strings *)

Module StrFacts.

Lemma split_newline_not_nil s : split_newline s <> [].
Proof.
  destruct s as [|c s]; simpl; [discriminate|].
  destruct (c =? newline)%N; [discriminate|].
  destruct (split_newline s); discriminate.
Qed.

(** The fallback of [last_line_or_unknown] is never taken on the lines of
    a split. *)
Lemma last_line_of_split s :
  last_line_or_unknown (split_newline s) = last (split_newline s) [].
Proof.
  pose proof (split_newline_not_nil s) as H.
  destruct (split_newline s); [contradiction|reflexivity].
Qed.

(** [split] cuts at the line breaks and nowhere else: joining the pieces
    gives the string back, and no piece holds a line break. *)
Lemma join_split_newline s : join_newline (split_newline s) = s.
Proof.
  induction s as [|c s IH]; [reflexivity|].
  pose proof (split_newline_not_nil s) as Hs. cbn [split_newline].
  destruct (c =? newline)%N eqn:E.
  - apply N.eqb_eq in E. subst c.
    destruct (split_newline s) as [|p ps]; [contradiction|].
    change (join_newline ([] :: p :: ps)) with (newline :: join_newline (p :: ps)).
    rewrite IH. reflexivity.
  - destruct (split_newline s) as [|p [|q ps]]; [contradiction| |].
    + simpl in *. rewrite IH. reflexivity.
    + change (join_newline ((c :: p) :: q :: ps))
        with (c :: (p ++ newline :: join_newline (q :: ps))).
      change (join_newline (p :: q :: ps))
        with (p ++ newline :: join_newline (q :: ps)) in IH.
      rewrite IH. reflexivity.
Qed.

Lemma split_newline_pieces s :
  Forall (Forall (fun c => c <> newline)) (split_newline s).
Proof.
  induction s as [|c s IH]; [repeat constructor|].
  cbn [split_newline]. destruct (c =? newline)%N eqn:E.
  - constructor; [constructor|exact IH].
  - apply N.eqb_neq in E.
    destruct (split_newline s) as [|p ps]; [repeat constructor; exact E|].
    inversion IH; subst. constructor; [constructor; assumption|assumption].
Qed.

Lemma split_newline_snoc s c :
  split_newline (s ++ [c]) =
  if (c =? newline)%N then split_newline s ++ [[]]
  else removelast (split_newline s) ++ [last (split_newline s) [] ++ [c]].
Proof.
  induction s as [|a s IH]; simpl.
  - destruct (c =? newline)%N; reflexivity.
  - pose proof (split_newline_not_nil s) as Hs.
    rewrite IH. clear IH.
    destruct (split_newline s) as [|q qs]; [contradiction|].
    destruct (a =? newline)%N, (c =? newline)%N; try reflexivity.
    destruct qs; reflexivity.
Qed.

Lemma last_split_newline_snoc s c :
  last (split_newline (s ++ [c])) [] =
  if (c =? newline)%N then [] else last (split_newline s) [] ++ [c].
Proof.
  rewrite split_newline_snoc.
  destruct (c =? newline)%N; apply last_last.
Qed.

Lemma lstrip_head s :
  lstrip s = [] \/ exists c rest, lstrip s = c :: rest /\ isspace c = false.
Proof.
  induction s as [|c s IH]; simpl; [left; reflexivity|].
  destruct (isspace c) eqn:E; [exact IH|].
  right. exists c, s. split; [reflexivity|exact E].
Qed.

(** What [strip] leaves is empty or ends in a visible character. *)
Lemma strip_last s :
  strip s = [] \/ exists body c, strip s = body ++ [c] /\ isspace c = false.
Proof.
  unfold strip, rstrip.
  destruct (lstrip_head (rev (lstrip s))) as [H|[c [rest [H Hc]]]]; rewrite H.
  - left. reflexivity.
  - right. exists (rev rest), c. split; [reflexivity|exact Hc].
Qed.

End StrFacts.

(** ** convert_otf_to_ttf *)

Section ConverterFacts.
Context {World : Type} (os : OS World).

Local Ltac run_convert :=
  unfold convert_otf_to_ttf, run_function, try_finally, try_except,
    convert_body, convert_handler, convert_finally,
    Stmt.bind, Stmt.call, Stmt.call_exn, Stmt.assign, Stmt.return_result;
  simpl.

Lemma convert_missing_file file_path w :
  fst (os_path_exists os file_path (world_in_try os w)) = false ->
  convert_otf_to_ttf os file_path w =
  (inr (Some (mkResult (os_path_basename os file_path) false
                       (utf8 "文件不存在") (elapsed os file_path w))),
   snd (time_time os (world_at_finally os file_path w))).
Proof.
  unfold elapsed, world_at_finally, world_in_try. run_convert.
  destruct (time_time os w) as [t0 w1]. simpl.
  destruct (os_path_exists os file_path w1) as [ex w2]. simpl.
  intros ->. simpl.
  destruct (time_time os w2) as [t1 w3]. reflexivity.
Qed.

Lemma convert_exit_zero file_path w process :
  fst (os_path_exists os file_path (world_in_try os w)) = true ->
  fst (subprocess_run os [utf8 "otf2ttf"; file_path]
         (snd (os_path_exists os file_path (world_in_try os w)))) = inr process ->
  returncode process = 0%Z ->
  convert_otf_to_ttf os file_path w =
  (inr (Some (mkResult (os_path_basename os file_path) true []
                       (elapsed os file_path w))),
   snd (time_time os (world_at_finally os file_path w))).
Proof.
  unfold elapsed, world_at_finally, world_in_try. run_convert.
  destruct (time_time os w) as [t0 w1]. simpl.
  destruct (os_path_exists os file_path w1) as [ex w2]. simpl.
  intros ->. simpl.
  destruct (subprocess_run os _ w2) as [r w3]. simpl.
  intros -> ->. simpl.
  destruct (time_time os w3) as [t1 w4]. reflexivity.
Qed.

Lemma convert_exit_nonzero file_path w process :
  fst (os_path_exists os file_path (world_in_try os w)) = true ->
  fst (subprocess_run os [utf8 "otf2ttf"; file_path]
         (snd (os_path_exists os file_path (world_in_try os w)))) = inr process ->
  returncode process <> 0%Z ->
  convert_otf_to_ttf os file_path w =
  (inr (Some (mkResult (os_path_basename os file_path) false
                       (last (split_newline (strip (stderr process))) [])
                       (elapsed os file_path w))),
   snd (time_time os (world_at_finally os file_path w))).
Proof.
  unfold elapsed, world_at_finally, world_in_try. run_convert.
  destruct (time_time os w) as [t0 w1]. simpl.
  destruct (os_path_exists os file_path w1) as [ex w2]. simpl.
  intros ->. simpl.
  destruct (subprocess_run os _ w2) as [r w3]. simpl.
  intros -> Hrc. apply Z.eqb_neq in Hrc. rewrite Hrc. simpl.
  rewrite StrFacts.last_line_of_split.
  destruct (time_time os w3) as [t1 w4]. reflexivity.
Qed.

Lemma convert_run_raises file_path w e :
  fst (os_path_exists os file_path (world_in_try os w)) = true ->
  fst (subprocess_run os [utf8 "otf2ttf"; file_path]
         (snd (os_path_exists os file_path (world_in_try os w)))) = inl e ->
  convert_otf_to_ttf os file_path w =
  (inr (Some (mkResult (os_path_basename os file_path) false
                       (if is_Exception e
                        then utf8 "系统错误: " ++ exn_str e else [])
                       (elapsed os file_path w))),
   snd (time_time os (world_at_finally os file_path w))).
Proof.
  unfold elapsed, world_at_finally, world_in_try. run_convert.
  destruct (time_time os w) as [t0 w1]. simpl.
  destruct (os_path_exists os file_path w1) as [ex w2]. simpl.
  intros ->. simpl.
  destruct (subprocess_run os _ w2) as [r w3]. simpl.
  intros ->. simpl.
  destruct (is_Exception e); simpl;
    destruct (time_time os w3) as [t1 w4]; reflexivity.
Qed.

(** Every call returns a dictionary that carries the base name of the
    path and the elapsed time, whatever the system does. *)
Lemma convert_returns file_path w :
  exists ok message,
    convert_otf_to_ttf os file_path w =
    (inr (Some (mkResult (os_path_basename os file_path) ok message
                         (elapsed os file_path w))),
     snd (time_time os (world_at_finally os file_path w))).
Proof.
  destruct (fst (os_path_exists os file_path (world_in_try os w))) eqn:Ex.
  - destruct (fst (subprocess_run os [utf8 "otf2ttf"; file_path]
                     (snd (os_path_exists os file_path (world_in_try os w)))))
      as [e|process] eqn:Run.
    + eexists _, _. apply (convert_run_raises _ _ Ex Run).
    + destruct (Z.eq_dec (returncode process) 0) as [Hz|Hnz].
      * eexists _, _. apply (convert_exit_zero _ _ Ex Run Hz).
      * eexists _, _. apply (convert_exit_nonzero _ _ Ex Run Hnz).
  - eexists _, _. apply (convert_missing_file _ _ Ex).
Qed.

(** A stream with a visible character in it gives a message that is not
    empty: the text after the last line break of the stripped stream. *)
Lemma visible_stream_message s :
  strip s <> [] -> last (split_newline (strip s)) [] <> [].
Proof.
  intros H. destruct (StrFacts.strip_last s) as [E|[body [c [E Hc]]]];
    [contradiction|].
  rewrite E, StrFacts.last_split_newline_snoc.
  destruct (c =? newline)%N eqn:Hn.
  - apply N.eqb_eq in Hn. subst c. discriminate.
  - destruct (last (split_newline body) []); discriminate.
Qed.

End ConverterFacts.

(** C3. [convert_otf_to_ttf] never raises: every call returns a result
    dictionary; and when launching or talking to the converter raises an
    exception [e] (an executable that is not found, an I/O failure), the
    result is a failure whose error is ["系统错误: "] followed by [str(e)]. *)
Theorem convert_never_raises {World : Type} (os : OS World) file_path w :
  (exists result w',
     convert_otf_to_ttf os file_path w = (inr (Some result), w'))
  /\ (forall e,
        fst (os_path_exists os file_path (world_in_try os w)) = true ->
        fst (subprocess_run os [utf8 "otf2ttf"; file_path]
               (snd (os_path_exists os file_path (world_in_try os w)))) = inl e ->
        is_Exception e = true ->
        exists result w',
          convert_otf_to_ttf os file_path w = (inr (Some result), w')
          /\ success result = false
          /\ error result = utf8 "系统错误: " ++ exn_str e).
Proof.
  split.
  - destruct (convert_returns os file_path w) as [ok [message H]].
    eexists _, _. exact H.
  - intros e Ex Run He.
    eexists _, _. split; [apply (convert_run_raises os _ _ Ex Run)|].
    simpl. rewrite He. split; reflexivity.
Qed.

(** The converter is missing: the call reports a system error. *)
Lemma convert_never_raises_witness :
  exists result w',
    convert_otf_to_ttf (Toy.toy_os Toy.no_converter) (utf8 "D:\a.otf") 0%Z
    = (inr (Some result), w')
    /\ success result = false
    /\ error result = utf8 "系统错误: [WinError 2] otf2ttf".
Proof.
  exact (proj2 (convert_never_raises (Toy.toy_os Toy.no_converter)
                  (utf8 "D:\a.otf") 0%Z)
               (mkExn FileNotFoundError (utf8 "[WinError 2] otf2ttf"))
               eq_refl eq_refl eq_refl).
Defined.

(** An exception outside the [Exception] hierarchy is swallowed by the
    [return] of the [finally] block as well, with no message. *)
Lemma convert_swallows_base_exception {World : Type} (os : OS World) file_path w e :
  fst (os_path_exists os file_path (world_in_try os w)) = true ->
  fst (subprocess_run os [utf8 "otf2ttf"; file_path]
         (snd (os_path_exists os file_path (world_in_try os w)))) = inl e ->
  is_Exception e = false ->
  exists result w',
    convert_otf_to_ttf os file_path w = (inr (Some result), w')
    /\ success result = false /\ error result = [].
Proof.
  intros Ex Run He.
  eexists _, _. split; [apply (convert_run_raises os _ _ Ex Run)|].
  simpl. rewrite He. split; reflexivity.
Qed.

(** C9. On every path out of [convert_otf_to_ttf] (missing file, exit
    status zero or not, exception) the field ["time"] of the returned
    result is the last clock reading of the call, taken in the [finally]
    block, minus the first one, taken on entry. *)
Theorem convert_records_elapsed_time {World : Type} (os : OS World) file_path w :
  exists result,
    convert_otf_to_ttf os file_path w =
      (inr (Some result), snd (time_time os (world_at_finally os file_path w)))
    /\ time result =
       PFloat (fsub (fst (time_time os (world_at_finally os file_path w)))
                    (fst (time_time os w)))
    /\ world_at_finally os file_path w =
       (if fst (os_path_exists os file_path (snd (time_time os w)))
        then snd (subprocess_run os [utf8 "otf2ttf"; file_path]
                    (snd (os_path_exists os file_path (snd (time_time os w)))))
        else snd (os_path_exists os file_path (snd (time_time os w)))).
Proof.
  destruct (convert_returns os file_path w) as [ok [message H]].
  eexists. split; [exact H|]. split; [reflexivity|].
  unfold world_at_finally, world_in_try.
  destruct (os_path_exists os file_path (snd (time_time os w))) as [ex w2].
  reflexivity.
Qed.

(** C2. The converter exits with status 1 and an empty error stream: the
    result is a failure whose error is the empty string, not ["未知错误"];
    [split] gives one empty line, so the fallback is not taken. *)
Theorem empty_error_stream_gives_empty_message :
  let process := mkCompletedProcess 1 [] [] in
  Toy.converter Toy.silent_failure (utf8 "D:\a.otf") = inr process
  /\ split_newline (strip (stderr process)) = [[]]
  /\ exists result w',
       convert_otf_to_ttf (Toy.toy_os Toy.silent_failure) (utf8 "D:\a.otf") 0%Z
       = (inr (Some result), w')
       /\ success result = false
       /\ error result = []
       /\ error result <> utf8 "未知错误".
Proof.
  simpl. split; [reflexivity|]. split; [reflexivity|].
  eexists _, _. split; [reflexivity|]. simpl.
  split; [reflexivity|]. split; [reflexivity|]. discriminate.
Qed.

(** The message of a non-zero exit in general: the text after the last
    line break of the stripped error stream, for every stream; never the
    fallback, unless the converter writes those very words. *)
Lemma nonzero_exit_message {World : Type} (os : OS World) file_path w process :
  fst (os_path_exists os file_path (world_in_try os w)) = true ->
  fst (subprocess_run os [utf8 "otf2ttf"; file_path]
         (snd (os_path_exists os file_path (world_in_try os w)))) = inr process ->
  returncode process <> 0%Z ->
  exists result w',
    convert_otf_to_ttf os file_path w = (inr (Some result), w')
    /\ success result = false
    /\ error result = last (split_newline (strip (stderr process))) []
    /\ (strip (stderr process) = [] -> error result = [])
    /\ (strip (stderr process) <> [] -> error result <> []).
Proof.
  intros Ex Run Hrc.
  eexists _, _. split; [apply (convert_exit_nonzero os _ _ Ex Run Hrc)|].
  simpl. split; [reflexivity|]. split; [reflexivity|]. split.
  - intros ->. reflexivity.
  - apply visible_stream_message.
Qed.

(** ** The thread pool *)

Module PoolFacts.

Lemma remove_at_middle {A} (l1 l2 : list A) x :
  remove_at (length l1) (l1 ++ x :: l2) = l1 ++ l2.
Proof.
  unfold remove_at. induction l1 as [|a l1 IH]; [reflexivity|].
  cbn [length app firstn skipn]. cbn [skipn] in IH. rewrite IH. reflexivity.
Qed.

Lemma nth_remove_at_perm {A} (l : list A) i d :
  (i < length l)%nat -> Permutation (nth i l d :: remove_at i l) l.
Proof.
  intros H. destruct (nth_split l d H) as [l1 [l2 [E Hl]]].
  rewrite E at 2 3. rewrite <- Hl, remove_at_middle.
  apply Permutation_middle.
Qed.

(** [as_completed] yields every pending future exactly once. *)
Lemma as_completed_perm {A} (picks : list nat) (pending : list A) :
  Permutation (as_completed picks pending) pending.
Proof.
  revert pending. induction picks as [|k picks IH]; intros pending.
  - destruct pending; reflexivity.
  - destruct pending as [|first rest]; [reflexivity|].
    cbn [as_completed].
    set (l := first :: rest).
    assert (Hi : (k mod length l < length l)%nat)
      by (apply Nat.mod_upper_bound; subst l; simpl; lia).
    etransitivity; [apply perm_skip, IH|].
    apply nth_remove_at_perm, Hi.
Qed.

(** Every order of the pending futures is the outcome of some [picks]. *)
Lemma as_completed_any_order {A} (order pending : list A) :
  Permutation order pending ->
  exists picks, as_completed picks pending = order.
Proof.
  revert pending. induction order as [|x order IH]; intros pending Hperm.
  - apply Permutation_nil in Hperm. subst. exists []. reflexivity.
  - assert (Hin : In x pending)
      by (apply (Permutation_in x Hperm); left; reflexivity).
    destruct (in_split x pending Hin) as [l1 [l2 E]]. subst pending.
    apply Permutation_cons_app_inv in Hperm.
    destruct (IH _ Hperm) as [picks Hpicks].
    exists (length l1 :: picks).
    destruct (l1 ++ x :: l2) as [|first rest] eqn:E;
      [destruct l1; discriminate|].
    cbn [as_completed]. rewrite <- E.
    assert (Hlt : (length l1 < length (l1 ++ x :: l2))%nat)
      by (rewrite length_app; simpl; lia).
    rewrite (Nat.mod_small _ _ Hlt), remove_at_middle, Hpicks.
    rewrite app_nth2, Nat.sub_diag by lia. reflexivity.
Qed.

Section WithOS.
Context {World : Type} (os : OS World).

Lemma submit_all_files sched k files :
  map snd (submit_all os sched k files) = files.
Proof.
  revert k. induction files as [|f files IH]; intros k; simpl;
    [reflexivity|]. rewrite IH. reflexivity.
Qed.

Lemma submit_all_ids sched k files :
  map fut_id (map fst (submit_all os sched k files)) = seq k (length files).
Proof.
  revert k. induction files as [|f files IH]; intros k; simpl;
    [reflexivity|]. rewrite IH. reflexivity.
Qed.

Lemma submit_all_length sched k files :
  length (submit_all os sched k files) = length files.
Proof. rewrite <- (submit_all_files sched k files) at 2. now rewrite length_map. Qed.

(** Every future of [main] holds a dictionary: the task never raises. *)
Lemma submit_all_returned sched k files :
  Forall (fun future => exists result, fut_outcome future = inr (Some result))
         (map fst (submit_all os sched k files)).
Proof.
  revert k. induction files as [|f files IH]; intros k; simpl; constructor.
  - simpl. destruct (convert_returns os f (task_world sched k)) as [ok [msg H]].
    rewrite H. eexists. reflexivity.
  - apply IH.
Qed.

Lemma submit_all_well_behaved sched k files :
  Forall well_behaved (map fst (submit_all os sched k files)).
Proof.
  eapply Forall_impl; [|apply submit_all_returned].
  intros future [result H]. unfold well_behaved. rewrite H. exact I.
Qed.

(** A key of the dictionary is found. *)
Lemma dict_get_key future_to_file future :
  In future (map fst future_to_file) ->
  exists file, dict_get future_to_file future = inr file.
Proof.
  induction future_to_file as [|[key file] rest IH]; simpl; [tauto|].
  intros [->|H].
  - rewrite Nat.eqb_refl. eexists. reflexivity.
  - destruct (fut_id key =? fut_id future)%nat; [eexists; reflexivity|].
    apply IH, H.
Qed.

End WithOS.

End PoolFacts.

(** ** print_progress_bar *)

Module ProgressFacts.

Local Open Scope Z_scope.

Lemma repeat_str_length c n : length (repeat_str [c] n) = Z.to_nat n.
Proof.
  unfold repeat_str. induction (Z.to_nat n) as [|k IH]; simpl; congruence.
Qed.

(** With [total] at least one and [iteration] between zero and [total],
    the call writes a bar of [length] characters. *)
Lemma print_progress_bar_defined iteration total :
  1 <= total -> 0 <= iteration <= total ->
  exists percent bar,
    print_progress_bar iteration total =
      inr (EvProgressBar iteration total percent bar (iteration =? total))
    /\ length bar = 50%nat.
Proof.
  intros Ht Hi. unfold print_progress_bar, truediv, floordiv.
  rewrite FloatFacts.float_of_Z_pos_not_zero by lia.
  destruct (total =? 0) eqn:E; [apply Z.eqb_eq in E; lia|].
  eexists _, _. split; [reflexivity|].
  change progress_fill with [9608%N]. change (utf8 "-") with [45%N].
  rewrite length_app, !repeat_str_length.
  assert (0 <= progress_length * iteration / total <= progress_length).
  { unfold progress_length. split.
    - apply Z.div_pos; lia.
    - apply Z.div_le_upper_bound; lia. }
  unfold progress_length in *. lia.
Qed.

(** With [total = 0] the call raises [ZeroDivisionError]. *)
Lemma print_progress_bar_zero iteration :
  exists e, print_progress_bar iteration 0 = inl e
            /\ exn_class_of e = ZeroDivisionError.
Proof. eexists. split; reflexivity. Qed.

End ProgressFacts.

(** ** The collection loop *)

Section LoopFacts.
Context {World : Type} (os : OS World).

Local Open Scope Z_scope.

Lemma numbered_within_weaken total lo hi lo' hi' ev :
  lo' <= lo -> hi <= hi' ->
  numbered_within total lo hi ev -> numbered_within total lo' hi' ev.
Proof.
  intros Hlo Hhi. destruct ev; simpl; try tauto.
  - intros (H1 & H2 & H3 & H4). repeat split; try assumption; lia.
  - intros (H1 & H2). split; [assumption|lia].
Qed.

Local Ltac run_py :=
  unfold Py.bind, Py.lift, Py.emit, Py.ret, Py.raise, Py.call, Py.call_exn;
  simpl.

(** One turn on a well-behaved future of the dictionary. *)
Lemma collect_one_ok total future_to_file st future w :
  1 <= total -> 0 <= processed_count st < total ->
  In future (map fst future_to_file) -> well_behaved future ->
  exists st' out,
    collect_one os total future_to_file st future w = (inr st', out, w)
    /\ processed_count st' = processed_count st + 1
    /\ success_count st' =
       success_count st + (if task_succeeded future then 1 else 0)
    /\ failed_count st' =
       failed_count st + (if task_succeeded future then 0 else 1)
    /\ total_processing_time st' =
       PyNum.add (total_processing_time st) (consumed_time future)
    /\ Forall (numbered_within total (processed_count st) (processed_count st + 1)) out
    /\ length (filter is_result_line out) = 1%nat.
Proof.
  intros Ht Hp Hin Hwb.
  destruct (PoolFacts.dict_get_key future_to_file future Hin) as [file Hget].
  destruct (@ProgressFacts.print_progress_bar_defined
              (processed_count st + 1) total Ht) as [percent [bar [Hbar Hlen]]];
    [lia|].
  assert (Hres : exists result,
             result_or_wrapped os file future = inr (Some result)
             /\ success result = task_succeeded future
             /\ time result = consumed_time future).
  { unfold result_or_wrapped, task_succeeded, consumed_time, well_behaved in *.
    destruct (fut_outcome future) as [e|[result|]]; [|eauto|contradiction].
    rewrite Hwb. eexists. repeat split; reflexivity. }
  destruct Hres as (result & Hres & Hsucc & Htime).
  unfold collect_one. run_py. rewrite Hget. simpl. rewrite Hres. simpl.
  rewrite Hbar. simpl. rewrite <- Hsucc, <- Htime.
  eexists _, _. split; [reflexivity|]. simpl.
  repeat split; try (destruct (success result); lia).
  repeat constructor; simpl; try lia; assumption.
Qed.

(** The loop on well-behaved futures of the dictionary runs to its end,
    counts every future once, and writes one bar and one line for each. *)
Lemma collect_loop_ok total future_to_file completed :
  forall st w,
  1 <= total -> 0 <= processed_count st ->
  processed_count st + Z.of_nat (length completed) <= total ->
  Forall (fun future => In future (map fst future_to_file)
                        /\ well_behaved future) completed ->
  exists st' out,
    for_each completed (collect_one os total future_to_file) st w
      = (inr st', out, w)
    /\ processed_count st' = processed_count st + Z.of_nat (length completed)
    /\ success_count st' =
       success_count st + Z.of_nat (length (filter task_succeeded completed))
    /\ success_count st' + failed_count st' =
       success_count st + failed_count st + Z.of_nat (length completed)
    /\ total_processing_time st' =
       fold_left PyNum.add (map consumed_time completed) (total_processing_time st)
    /\ Forall (numbered_within total (processed_count st)
                 (processed_count st + Z.of_nat (length completed))) out
    /\ length (filter is_result_line out) = length completed.
Proof.
  induction completed as [|future completed IH]; intros st w Ht Hp Hle Hall.
  - exists st, []. simpl. repeat split; try lia. constructor.
  - inversion Hall as [|? ? [Hin Hwb] Hall']; subst.
    cbn [length] in Hle. rewrite Nat2Z.inj_succ in Hle.
    destruct (@collect_one_ok total future_to_file st future w Ht)
      as (st1 & out1 & Hrun1 & Hp1 & Hs1 & Hf1 & Ht1 & Hn1 & Hl1);
      [lia|assumption|assumption|].
    destruct (IH st1 w Ht)
      as (st2 & out2 & Hrun2 & Hp2 & Hs2 & Hsf2 & Ht2 & Hn2 & Hl2);
      [lia|lia|assumption|].
    exists st2, (out1 ++ out2).
    cbn [for_each length filter]. unfold Py.bind at 1.
    rewrite Hrun1, Hrun2. rewrite Nat2Z.inj_succ.
    split; [reflexivity|].
    split; [lia|].
    split; [destruct (task_succeeded future); cbn [length];
            rewrite ?Nat2Z.inj_succ; lia|].
    split; [destruct (task_succeeded future); lia|].
    split; [cbn [map fold_left]; rewrite Ht2, Ht1; reflexivity|].
    split.
    + apply Forall_app. split.
      * eapply Forall_impl; [|exact Hn1].
        intros ev. apply numbered_within_weaken; lia.
      * eapply Forall_impl; [|exact Hn2].
        intros ev. apply numbered_within_weaken; lia.
    + rewrite filter_app, length_app, Hl1, Hl2. reflexivity.
Qed.

End LoopFacts.

(** ** main *)

Section MainFacts.
Context {World : Type} (os : OS World).
Variable IS_WINDOWS : bool.

Local Open Scope Z_scope.

Lemma bind_run {A B} (m : Py World A) (k : A -> Py World B) w a out w' :
  m w = (inr a, out, w') ->
  Py.bind m k w =
  (status_of (k a w'), out ++ trace_of (k a w'), snd (k a w')).
Proof.
  intros H. unfold Py.bind, status_of, trace_of. rewrite H.
  destruct (k a w') as [[r out'] w'']. reflexivity.
Qed.

Lemma bind_call {A B} (f : World -> A * World) (k : A -> Py World B) w :
  Py.bind (Py.call f) k w = k (fst (f w)) (snd (f w)).
Proof.
  unfold Py.bind, Py.call. destruct (f w) as [a w']. simpl.
  destruct (k a w') as [[r out] w'']. reflexivity.
Qed.

Lemma bind_emit {B} ev (k : unit -> Py World B) w :
  Py.bind (Py.emit ev) k w =
  (status_of (k tt w), ev :: trace_of (k tt w), snd (k tt w)).
Proof.
  unfold Py.bind, Py.emit, status_of, trace_of.
  destruct (k tt w) as [[r out] w']. reflexivity.
Qed.

Lemma bind_lift {A B} (a : A) (k : A -> Py World B) w :
  Py.bind (Py.lift (inr a)) k w = k a w.
Proof.
  unfold Py.bind, Py.lift. destruct (k a w) as [[r out] w']. reflexivity.
Qed.

Lemma emit_all_run evs (w : World) : emit_all evs w = (inr tt, evs, w).
Proof.
  induction evs as [|ev evs IH]; [reflexivity|].
  cbn [emit_all]. unfold Py.bind, Py.emit. rewrite IH. reflexivity.
Qed.

Lemma with_pool_run sched max_threads total_files files w stats out :
  collect_results os total_files (submit_all os sched 0 files)
    (as_completed (picks sched) (map fst (submit_all os sched 0 files))) w
  = (inr stats, out, w) ->
  with_pool os sched max_threads total_files files w =
  (inr (stats, submit_all os sched 0 files),
   EvPoolCreated max_threads :: map EvSubmitted files ++ out,
   joined_world sched).
Proof.
  intros H. unfold with_pool.
  rewrite bind_emit.
  rewrite (@bind_run _ _ _ _ _ _ _ _ (emit_all_run (map EvSubmitted files) w)).
  rewrite (@bind_run _ _ _ _ _ _ _ _ H).
  unfold Py.ret, status_of, trace_of. simpl. rewrite app_nil_r. reflexivity.
Qed.

Lemma get_otf_files_raises directory w e w' :
  os_listdir os directory w = (inl e, w') ->
  get_otf_files os directory w = (inl e, w').
Proof. intros H. unfold get_otf_files. rewrite H. reflexivity. Qed.

(** The listing raises: [main] raises the same exception and has written
    nothing. *)
Lemma main_directory_error sched w e w2 :
  get_otf_files os font_dir (set_console_utf8 os IS_WINDOWS w) = (inl e, w2) ->
  main os IS_WINDOWS sched w = (inl e, [], w2).
Proof.
  intros H. unfold main, Py.bind, Py.call, Py.call_exn. rewrite H. reflexivity.
Qed.

(** No file found: [main] writes the error line and returns. *)
Lemma main_no_files sched w w2 :
  get_otf_files os font_dir (set_console_utf8 os IS_WINDOWS w) = (inr [], w2) ->
  main os IS_WINDOWS sched w = (inr tt, [EvNoFilesError], w2).
Proof.
  intros H. unfold main, Py.bind, Py.call, Py.call_exn. rewrite H. reflexivity.
Qed.

Lemma avg_time_per_file_defined total_processing_time total_files :
  0 < total_files ->
  avg_time_per_file_of total_processing_time total_files =
  inr (PyNum.quotient total_processing_time (PInt total_files)).
Proof.
  intros H. unfold avg_time_per_file_of, truediv. simpl.
  destruct (0 <? total_files) eqn:E; [|apply Z.ltb_ge in E; lia].
  destruct (total_files =? 0) eqn:E0; [apply Z.eqb_eq in E0; lia|reflexivity].
Qed.

Lemma files_per_second_defined success_count total_duration :
  files_per_second_of success_count total_duration =
  inr (if fltb fzero total_duration
       then PyNum.quotient (PInt success_count) (PFloat total_duration)
       else PInt 0).
Proof.
  unfold files_per_second_of, truediv. simpl.
  destruct (fltb fzero total_duration) eqn:E; [|reflexivity].
  rewrite (FloatFacts.fltb_zero_not_zero _ E). reflexivity.
Qed.

Lemma filter_length_perm {A} (f : A -> bool) l l' :
  Permutation l l' -> length (filter f l) = length (filter f l').
Proof.
  induction 1; simpl; try congruence.
  - destruct (f x); simpl; congruence.
  - destruct (f x), (f y); reflexivity.
Qed.

(** The loop of [main] on the futures of [main]: it ends normally, has
    taken every future once, and its counters add up. *)
Lemma collect_results_ok sched files w :
  files <> [] ->
  let total_files := Z.of_nat (length files) in
  let future_to_file := submit_all os sched 0 files in
  let completed := as_completed (picks sched) (map fst future_to_file) in
  exists stats out,
    collect_results os total_files future_to_file completed w
      = (inr stats, out, w)
    /\ processed_count stats = total_files
    /\ success_count stats + failed_count stats = total_files
    /\ success_count stats =
       Z.of_nat (length (filter task_succeeded (map fst future_to_file)))
    /\ total_processing_time stats = cumulative_time completed
    /\ Forall (numbered_within total_files 0 total_files) out
    /\ length (filter is_result_line out) = length files.
Proof.
  intros Hne. intros.
  assert (Hpos : 1 <= total_files).
  { subst total_files. destruct files; [contradiction|]. simpl length. lia. }
  assert (Hperm : Permutation completed (map fst future_to_file))
    by apply PoolFacts.as_completed_perm.
  assert (Hlen : length completed = length files).
  { rewrite (Permutation_length Hperm), length_map.
    apply PoolFacts.submit_all_length. }
  destruct (@collect_loop_ok World os total_files future_to_file completed
              (mkStats 0 0 0 (PInt 0)) w Hpos)
    as (stats & out & Hrun & Hp & Hs & Hsf & Htpt & Hn & Hl).
  { simpl. lia. }
  { simpl. rewrite Hlen. subst total_files. lia. }
  { apply Forall_forall. intros future Hin.
    apply (Permutation_in _ Hperm) in Hin. split; [exact Hin|].
    revert future Hin. apply Forall_forall.
    apply PoolFacts.submit_all_well_behaved. }
  simpl in Hp, Hs, Hsf, Htpt, Hn. rewrite Hlen in *.
  fold total_files in Hp, Hsf, Hn. fold (cumulative_time completed) in Htpt.
  exists stats, out.
  split; [exact Hrun|].
  split; [exact Hp|].
  split; [exact Hsf|].
  split; [rewrite Hs; f_equal; apply filter_length_perm, Hperm|].
  split; [exact Htpt|].
  split; [exact Hn|exact Hl].
Qed.

(** A run in which files were found: the loop ends normally with every
    task counted once, and [main] returns after the report. *)
Lemma main_dispatching sched w files w2 :
  get_otf_files os font_dir (set_console_utf8 os IS_WINDOWS w) = (inr files, w2) ->
  files <> [] ->
  let total_files := Z.of_nat (length files) in
  let cpu_cores := cpu_cores_of (fst (os_cpu_count os w2)) in
  let max_threads := max_threads_of cpu_cores in
  let w3 := snd (os_cpu_count os w2) in
  let started := fst (datetime_now os w3) in
  let w4 := snd (datetime_now os w3) in
  let start_total_time := fst (time_time os w4) in
  let w5 := snd (time_time os w4) in
  let future_to_file := submit_all os sched 0 files in
  let completed := as_completed (picks sched) (map fst future_to_file) in
  let end_total_time := fst (time_time os (joined_world sched)) in
  let w6 := snd (time_time os (joined_world sched)) in
  let total_duration := fsub end_total_time start_total_time in
  exists stats out,
    collect_results os total_files future_to_file completed w5
      = (inr stats, out, w5)
    /\ processed_count stats = total_files
    /\ success_count stats + failed_count stats = total_files
    /\ success_count stats =
       Z.of_nat (length (filter task_succeeded (map fst future_to_file)))
    /\ total_processing_time stats = cumulative_time completed
    /\ Forall (numbered_within total_files 0 total_files) out
    /\ length (filter is_result_line out) = length files
    /\ main os IS_WINDOWS sched w =
       (inr tt,
        EvBanner font_dir total_files max_threads cpu_cores started
          :: EvPoolCreated max_threads
          :: map EvSubmitted files
          ++ out
          ++ EvReport (success_count stats) (failed_count stats) total_duration
               (PyNum.quotient (cumulative_time completed) (PInt total_files))
               (if fltb fzero total_duration
                then PyNum.quotient (PInt (success_count stats))
                                    (PFloat total_duration)
                else PInt 0)
               (fst (datetime_now os w6))
          :: failure_listing (failed_count stats) future_to_file
          ++ [EvFooter],
        snd (datetime_now os w6)).
Proof.
  intros Hget Hne. intros.
  assert (Hpos : 1 <= total_files).
  { subst total_files. destruct files; [contradiction|]. simpl length. lia. }
  destruct (@collect_results_ok sched files w5 Hne)
    as (stats & out & Hrun & Hp & Hsf & Hs & Htpt & Hn & Hl).
  fold total_files future_to_file completed in Hrun, Hp, Hsf, Hs, Htpt, Hn.
  exists stats, out.
  repeat (split; [assumption|]).
  unfold main.
  rewrite bind_call. cbn [fst snd].
  rewrite (@bind_run _ _ _ _ _ files [] w2)
    by (unfold Py.call_exn; rewrite Hget; reflexivity).
  fold total_files.
  destruct (total_files =? 0) eqn:E0; [apply Z.eqb_eq in E0; lia|].
  rewrite bind_call. fold cpu_cores max_threads w3.
  rewrite bind_call. fold started w4.
  rewrite bind_emit.
  rewrite bind_call. fold start_total_time w5.
  rewrite (@bind_run _ _ _ _ _ _ _ _
             (@with_pool_run sched max_threads total_files files w5 stats out Hrun)).
  cbn [fst snd].
  rewrite bind_call. fold end_total_time w6 total_duration.
  rewrite avg_time_per_file_defined by lia. rewrite bind_lift.
  rewrite files_per_second_defined, bind_lift.
  rewrite bind_call. rewrite bind_emit.
  rewrite (@bind_run _ _ _ _ _ _ _ _ (emit_all_run _ _)).
  unfold Py.emit, status_of, trace_of. cbn [fst snd app].
  rewrite <- app_assoc, Htpt. reflexivity.
Qed.

(** The three ways a run goes. *)
Lemma main_cases w :
  (exists e w2,
     get_otf_files os font_dir (set_console_utf8 os IS_WINDOWS w) = (inl e, w2))
  \/ (exists w2,
     get_otf_files os font_dir (set_console_utf8 os IS_WINDOWS w) = (inr [], w2))
  \/ (exists files w2,
     get_otf_files os font_dir (set_console_utf8 os IS_WINDOWS w) = (inr files, w2)
     /\ files <> []).
Proof.
  destruct (get_otf_files os font_dir (set_console_utf8 os IS_WINDOWS w))
    as [[e|[|f files]] w2].
  - left. eauto.
  - right. left. eauto.
  - right. right. exists (f :: files), w2. split; [reflexivity|discriminate].
Qed.

Lemma failure_listing_events failed_count future_to_file ev :
  In ev (failure_listing failed_count future_to_file) ->
  ev = EvFailureHeader \/ exists name message, ev = EvFailureEntry name message.
Proof.
  unfold failure_listing. destruct (0 <? failed_count); [|contradiction].
  intros [<-|H]; [left; reflexivity|right].
  apply in_flat_map in H. destruct H as [future [_ H]].
  unfold failure_entry in H.
  destruct (fut_outcome future) as [e|[result|]]; try contradiction.
  destruct (success result); [contradiction|].
  destruct H as [<-|[]]. eauto.
Qed.

(** When every future returned a dictionary, as those of [main] do, the
    list has one entry for each failed dictionary, in submission order. *)
Lemma failure_listing_returned failed_count future_to_file :
  0 < failed_count ->
  Forall (fun future => exists result, fut_outcome future = inr (Some result))
         (map fst future_to_file) ->
  failure_listing failed_count future_to_file =
  EvFailureHeader
    :: map entry_of
         (filter (fun result => negb (success result))
                 (returned_results (map fst future_to_file))).
Proof.
  intros Hpos Hall. unfold failure_listing.
  destruct (0 <? failed_count) eqn:E; [|apply Z.ltb_ge in E; lia].
  f_equal. unfold returned_results.
  induction Hall as [|future futures [result Hr] _ IH]; [reflexivity|].
  cbn [flat_map]. rewrite IH. unfold failure_entry at 1. rewrite Hr.
  cbn [app filter]. destruct (success result); reflexivity.
Qed.

(** Where each event of a run comes from. *)
Lemma main_trace_events sched w ev :
  In ev (trace_of (main os IS_WINDOWS sched w)) ->
  ev = EvNoFilesError
  \/ exists files w2,
       get_otf_files os font_dir (set_console_utf8 os IS_WINDOWS w)
         = (inr files, w2)
       /\ files <> []
       /\ let total_files := Z.of_nat (length files) in
          let max_threads :=
            max_threads_of (cpu_cores_of (fst (os_cpu_count os w2))) in
          let completed :=
            as_completed (picks sched) (map fst (submit_all os sched 0 files)) in
          (exists cpu_cores started,
             ev = EvBanner font_dir total_files max_threads cpu_cores started)
          \/ ev = EvPoolCreated max_threads
          \/ (exists file, In file files /\ ev = EvSubmitted file)
          \/ numbered_within total_files 0 total_files ev
          \/ (exists succeeded failed total_duration ended,
                ev = EvReport succeeded failed total_duration
                       (PyNum.quotient (cumulative_time completed)
                                       (PInt total_files))
                       (if fltb fzero total_duration
                        then PyNum.quotient (PInt succeeded)
                                            (PFloat total_duration)
                        else PInt 0)
                       ended
                /\ succeeded + failed = total_files)
          \/ ev = EvFailureHeader
          \/ (exists name message, ev = EvFailureEntry name message)
          \/ ev = EvFooter.
Proof.
  destruct (main_cases w) as [(e & w2 & H)|[(w2 & H)|(files & w2 & H & Hne)]].
  - rewrite (main_directory_error sched _ H). intros [].
  - rewrite (main_no_files sched _ H). intros [<-|[]]. left. reflexivity.
  - destruct (main_dispatching sched _ H Hne)
      as (stats & out & _ & _ & Hsf & _ & _ & Hn & _ & Hmain).
    rewrite Hmain. unfold trace_of. cbn [fst snd].
    intros Hin. right. exists files, w2. split; [exact H|]. split; [exact Hne|].
    cbn zeta.
    destruct Hin as [<-|[<-|Hin]]; [eauto|tauto|].
    apply in_app_or in Hin. destruct Hin as [Hin|Hin].
    { apply in_map_iff in Hin. destruct Hin as [file [<- Hin]].
      right. right. left. eauto. }
    apply in_app_or in Hin. destruct Hin as [Hin|Hin].
    { right. right. right. left.
      revert ev Hin. apply Forall_forall. exact Hn. }
    destruct Hin as [<-|Hin].
    { right. right. right. right. left. eexists _, _, _, _.
      split; [reflexivity|exact Hsf]. }
    apply in_app_or in Hin. destruct Hin as [Hin|[<-|[]]]; [|tauto].
    apply failure_listing_events in Hin. tauto.
Qed.

End MainFacts.

(** * The claims about main *)

(** C1. When files were found, the dictionary holds one future per file,
    [as_completed] yields each of them exactly once, the loop takes a
    result from every one of them without raising and writes one result
    line for each, and at its end
    [success_count + failed_count = processed_count = N], whatever the
    conversions did and in whatever order they finished. *)
Theorem collection_counts_every_task
    {World : Type} (os : OS World) (sched : Schedule World) files w :
  files <> [] ->
  let total_files := Z.of_nat (length files) in
  let future_to_file := submit_all os sched 0 files in
  let completed := as_completed (picks sched) (map fst future_to_file) in
  map snd future_to_file = files
  /\ NoDup (map fut_id (map fst future_to_file))
  /\ Permutation completed (map fst future_to_file)
  /\ exists stats out,
       collect_results os total_files future_to_file completed w
         = (inr stats, out, w)
       /\ processed_count stats = total_files
       /\ (success_count stats + failed_count stats = processed_count stats)%Z
       /\ success_count stats =
          Z.of_nat (length (filter task_succeeded (map fst future_to_file)))
       /\ length (filter is_result_line out) = length files.
Proof.
  intros Hne. intros.
  split; [apply PoolFacts.submit_all_files|].
  split; [subst future_to_file; rewrite PoolFacts.submit_all_ids; apply seq_NoDup|].
  split; [apply PoolFacts.as_completed_perm|].
  destruct (@collect_results_ok World os sched files w Hne)
    as (stats & out & Hrun & Hp & Hsf & Hs & _ & _ & Hl).
  exists stats, out. repeat split; try assumption. lia.
Qed.

(** Three files, the last to be submitted finishing first: two successes
    and one failure are counted. *)
Lemma collection_counts_every_task_witness :
  exists stats out,
    collect_results (Toy.toy_os Toy.three_fonts) 3
      (submit_all (Toy.toy_os Toy.three_fonts) (Toy.toy_schedule [2; 0]%nat) 0
                  Toy.three_paths)
      (as_completed [2; 0]%nat
         (map fst (submit_all (Toy.toy_os Toy.three_fonts)
                     (Toy.toy_schedule [2; 0]%nat) 0 Toy.three_paths)))
      0%Z
    = (inr stats, out, 0%Z)
    /\ processed_count stats = 3%Z
    /\ (success_count stats + failed_count stats = processed_count stats)%Z
    /\ success_count stats = 2%Z
    /\ length (filter is_result_line out) = 3%nat.
Proof.
  destruct (@collection_counts_every_task _ (Toy.toy_os Toy.three_fonts)
              (Toy.toy_schedule [2; 0]%nat) Toy.three_paths 0%Z
              ltac:(discriminate))
    as (_ & _ & _ & stats & out & H).
  exists stats, out. exact H.
Defined.

(** Outside the runs of [main]: on a dictionary that holds a future whose
    task raised, the loop counts the task as failed and shows its message
    on the result line, and the failure list has the header and no entry
    for it.  [main] never builds such a dictionary, see
    [PoolFacts.submit_all_returned]. *)
Lemma listing_skips_a_raised_future :
  let os := Toy.toy_os Toy.no_fonts in
  let future_to_file := Toy.raised_task in
  exists stats out,
    collect_results os 1 future_to_file (map fst future_to_file) 0%Z
      = (inr stats, out, 0%Z)
    /\ failed_count stats = 1%Z
    /\ In (EvResultLine 1 1 (utf8 "a.otf") false (PInt 0)
             (Some (utf8 "任务异常: out of memory"))) out
    /\ failure_listing (failed_count stats) future_to_file = [EvFailureHeader].
Proof.
  eexists _, _. split; [reflexivity|]. simpl.
  split; [reflexivity|]. split; [|reflexivity].
  right. left. reflexivity.
Qed.

(** In [main] itself every future holds a dictionary, and the list then
    has one entry for each failed one, in submission order. *)
Lemma main_failure_listing_complete
    {World : Type} (os : OS World) (sched : Schedule World) files failed_count :
  (0 < failed_count)%Z ->
  failure_listing failed_count (submit_all os sched 0 files) =
  EvFailureHeader
    :: map entry_of
         (filter (fun result => negb (success result))
                 (returned_results (map fst (submit_all os sched 0 files)))).
Proof.
  intros H. apply failure_listing_returned; [exact H|].
  apply PoolFacts.submit_all_returned.
Qed.

(** C5. The detected count [c] is 1 when detection fails (or answers 0)
    and the answer otherwise; the pool size is [min(2 * c, 32)], at least
    1; and the pool [main] creates has that size. *)
Theorem worker_pool_size :
  (forall detected : option N,
     cpu_cores_of detected =
       match detected with None => 1 | Some n => Z.max 1 (Z.of_N n) end
     /\ max_threads_of (cpu_cores_of detected)
        = Z.min (2 * cpu_cores_of detected) 32
     /\ 1 <= max_threads_of (cpu_cores_of detected))%Z
  /\ (forall (World : Type) (os : OS World) IS_WINDOWS sched w max_workers,
        In (EvPoolCreated max_workers) (trace_of (main os IS_WINDOWS sched w)) ->
        max_workers =
        max_threads_of
          (cpu_cores_of
             (fst (os_cpu_count os
                     (snd (get_otf_files os font_dir
                             (set_console_utf8 os IS_WINDOWS w))))))).
Proof.
  split.
  - intros detected. unfold cpu_cores_of, max_threads_of.
    destruct detected as [n|]; [|repeat split; lia].
    destruct (n =? 0)%N eqn:E.
    + apply N.eqb_eq in E. subst n. repeat split; lia.
    + apply N.eqb_neq in E. repeat split; lia.
  - intros World os IS_WINDOWS sched w max_workers Hin.
    apply main_trace_events in Hin.
    destruct Hin as [Hin|(files & w2 & Hget & _ & Hin)]; [discriminate|].
    rewrite Hget. cbn [snd]. cbn zeta in Hin.
    destruct Hin as [(?&?&H)|[H|[(?&?&H)|[H|[(?&?&?&?&H&?)|[H|[(?&?&H)|H]]]]]]];
      try discriminate; try contradiction.
    inversion H. reflexivity.
Qed.

(** Four CPUs: the pool of the run has eight workers. *)
Lemma worker_pool_size_witness :
  8%Z = max_threads_of (cpu_cores_of (Some 4%N)).
Proof.
  exact (proj2 worker_pool_size _ (Toy.toy_os Toy.three_fonts) true
               (Toy.toy_schedule [2; 0]%nat) 0%Z 8%Z
               (or_intror (or_introl eq_refl))).
Defined.

(** C7. The directory is listed and no name in it passes the filter:
    [main] writes the error line and returns; it has neither created the
    pool nor submitted a task. *)
Theorem no_files_no_pool
    {World : Type} (os : OS World) IS_WINDOWS (sched : Schedule World) w names w' :
  os_listdir os font_dir (set_console_utf8 os IS_WINDOWS w) = (inr names, w') ->
  fst (keep_otf_files os font_dir names w') = [] ->
  get_otf_files os font_dir (set_console_utf8 os IS_WINDOWS w)
    = (inr [], snd (keep_otf_files os font_dir names w'))
  /\ main os IS_WINDOWS sched w
     = (inr tt, [EvNoFilesError], snd (keep_otf_files os font_dir names w'))
  /\ existsb is_pool_event (trace_of (main os IS_WINDOWS sched w)) = false.
Proof.
  intros Hlist Hkeep.
  assert (Hget : get_otf_files os font_dir (set_console_utf8 os IS_WINDOWS w)
                 = (inr [], snd (keep_otf_files os font_dir names w'))).
  { unfold get_otf_files. rewrite Hlist.
    destruct (keep_otf_files os font_dir names w') as [files w'']. simpl in *.
    rewrite Hkeep. reflexivity. }
  split; [exact Hget|].
  rewrite (main_no_files os IS_WINDOWS sched w Hget).
  split; reflexivity.
Qed.

(** A directory that holds a text file only. *)
Lemma no_files_no_pool_witness :
  main (Toy.toy_os Toy.no_fonts) true (Toy.toy_schedule []) 0%Z
  = (inr tt, [EvNoFilesError], 0%Z).
Proof.
  exact (proj1 (proj2 (@no_files_no_pool _ (Toy.toy_os Toy.no_fonts) true
                         (Toy.toy_schedule []) 0%Z [utf8 "notes.txt"] 0%Z
                         eq_refl eq_refl))).
Defined.

(** C8. Listing the directory raises (it does not exist, or is not a
    directory): [get_otf_files] raises that exception, [main] raises it
    to its caller, and nothing was written, no pool created, no task
    submitted. *)
Theorem missing_directory_aborts
    {World : Type} (os : OS World) IS_WINDOWS (sched : Schedule World) w e w' :
  os_listdir os font_dir (set_console_utf8 os IS_WINDOWS w) = (inl e, w') ->
  get_otf_files os font_dir (set_console_utf8 os IS_WINDOWS w) = (inl e, w')
  /\ main os IS_WINDOWS sched w = (inl e, [], w')
  /\ existsb is_pool_event (trace_of (main os IS_WINDOWS sched w)) = false.
Proof.
  intros Hlist.
  pose proof (get_otf_files_raises os _ _ Hlist) as Hget.
  split; [exact Hget|].
  rewrite (main_directory_error os IS_WINDOWS sched w Hget).
  split; reflexivity.
Qed.

(** The font directory is missing: the run ends in [FileNotFoundError]. *)
Lemma missing_directory_aborts_witness :
  main (Toy.toy_os Toy.no_directory) true (Toy.toy_schedule []) 0%Z
  = (inl (mkExn FileNotFoundError
            (utf8 "[WinError 3] D:\Software\PotPlayer\otf")),
     [], 0%Z).
Proof.
  exact (proj1 (proj2 (@missing_directory_aborts _ (Toy.toy_os Toy.no_directory)
                         true (Toy.toy_schedule []) 0%Z _ 0%Z eq_refl))).
Defined.

(** C10. [print_progress_bar] with [total = 0] raises
    [ZeroDivisionError].  In a run of [main] every call has
    [total = total_files >= 1] and [1 <= iteration <= total], returns
    normally and draws a bar of 50 characters; and [main] raises only
    what the directory listing raised. *)
Theorem progress_bar_total_never_zero :
  (forall iteration,
     exists e, print_progress_bar iteration 0 = inl e
               /\ exn_class_of e = ZeroDivisionError)
  /\ (forall (World : Type) (os : OS World) IS_WINDOWS sched w
             iteration total percent bar newline,
        In (EvProgressBar iteration total percent bar newline)
           (trace_of (main os IS_WINDOWS sched w)) ->
        exists files,
          fst (get_otf_files os font_dir (set_console_utf8 os IS_WINDOWS w))
            = inr files
          /\ total = Z.of_nat (length files)
          /\ (1 <= total)%Z
          /\ (1 <= iteration <= total)%Z
          /\ print_progress_bar iteration total
             = inr (EvProgressBar iteration total percent bar newline)
          /\ length bar = 50%nat)
  /\ (forall (World : Type) (os : OS World) IS_WINDOWS sched w e,
        status_of (main os IS_WINDOWS sched w) = inl e ->
        fst (get_otf_files os font_dir (set_console_utf8 os IS_WINDOWS w))
          = inl e).
Proof.
  split; [apply ProgressFacts.print_progress_bar_zero|]. split.
  - intros World os IS_WINDOWS sched w iteration total percent bar newline Hin.
    apply main_trace_events in Hin.
    destruct Hin as [Hin|(files & w2 & Hget & Hne & Hin)]; [discriminate|].
    exists files. rewrite Hget. split; [reflexivity|]. cbn zeta in Hin.
    destruct Hin as [(?&?&H)|[H|[(?&?&H)|[H|[(?&?&?&?&H&?)|[H|[(?&?&H)|H]]]]]]];
      try discriminate.
    simpl in H. destruct H as (Ht & Hi & Hcall & Hlen).
    repeat split; try assumption; lia.
  - intros World os IS_WINDOWS sched w e.
    destruct (main_cases os IS_WINDOWS w)
      as [(e' & w2 & H)|[(w2 & H)|(files & w2 & H & Hne)]].
    + rewrite (main_directory_error os IS_WINDOWS sched w H), H.
      unfold status_of. simpl. intros [= ->]. reflexivity.
    + rewrite (main_no_files os IS_WINDOWS sched w H). discriminate.
    + destruct (main_dispatching os IS_WINDOWS sched w H Hne)
        as (stats & out & _ & _ & _ & _ & _ & _ & _ & Hmain).
      rewrite Hmain. discriminate.
Qed.

(** The second of the three bars of a run is drawn for 2 of 3. *)
Lemma progress_bar_total_never_zero_witness :
  exists files,
    fst (get_otf_files (Toy.toy_os Toy.three_fonts) font_dir 0%Z) = inr files
    /\ 3%Z = Z.of_nat (length files)
    /\ (1 <= 3)%Z
    /\ (1 <= 2 <= 3)%Z
    /\ print_progress_bar 2 3
       = inr (EvProgressBar 2 3 (S754_finite false 4691249611844266 (-46))
                (repeat_str progress_fill 33 ++ repeat_str (utf8 "-") 17) false)
    /\ length (repeat_str progress_fill 33 ++ repeat_str (utf8 "-") 17) = 50%nat.
Proof.
  apply (proj1 (proj2 progress_bar_total_never_zero)
           _ (Toy.toy_os Toy.three_fonts) true (Toy.toy_schedule [2; 0]%nat) 0%Z).
  vm_compute. do 7 right. left. reflexivity.
Defined.

(** * Further properties *)

(** ** Further facts on strings *)

Module MoreStrFacts.

Lemma startswith_iff s prefix :
  startswith s prefix = true <-> exists rest, s = prefix ++ rest.
Proof.
  revert s. induction prefix as [|p prefix IH]; intros s; simpl.
  - split; [intros _; exists s; reflexivity|intros _; destruct s; reflexivity].
  - destruct s as [|c s]; simpl.
    + split; [discriminate|intros [rest H]; discriminate].
    + rewrite andb_true_iff, N.eqb_eq, IH. split.
      * intros [-> [rest ->]]. exists rest. reflexivity.
      * intros [rest H]. inversion H; subst. split; [reflexivity|eauto].
Qed.

Lemma endswith_iff s suffix :
  endswith s suffix = true <-> exists stem, s = stem ++ suffix.
Proof.
  unfold endswith. rewrite startswith_iff. split.
  - intros [rest H]. exists (rev rest).
    rewrite <- (rev_involutive s), H, rev_app_distr, rev_involutive. reflexivity.
  - intros [stem ->]. exists (rev stem). apply rev_app_distr.
Qed.

Lemma lower_char_dot c : lower_char c = 46%N <-> c = 46%N.
Proof.
  unfold lower_char. destruct ((65 <=? c) && (c <=? 90))%N eqn:E.
  - apply andb_true_iff in E. destruct E as [E1 E2].
    apply N.leb_le in E1, E2. lia.
  - tauto.
Qed.

Lemma lower_char_letter c l :
  (97 <= l <= 122)%N -> lower_char c = l <-> (c = l \/ c = (l - 32)%N).
Proof.
  intros Hl. unfold lower_char. destruct ((65 <=? c) && (c <=? 90))%N eqn:E.
  - apply andb_true_iff in E. destruct E as [E1 E2].
    apply N.leb_le in E1, E2. lia.
  - apply andb_false_iff in E. destruct E as [E|E]; apply N.leb_gt in E; lia.
Qed.

Lemma repeat_str_single c n : repeat_str [c] n = repeat c (Z.to_nat n).
Proof.
  unfold repeat_str. induction (Z.to_nat n) as [|k IH]; simpl; congruence.
Qed.

Lemma join_newline_last (pieces : list str) :
  pieces <> [] ->
  join_newline pieces = last pieces []
  \/ exists before, join_newline pieces = before ++ newline :: last pieces [].
Proof.
  induction pieces as [|p [|q ps] IH]; intros H; [contradiction|left; reflexivity|].
  right. destruct IH as [IH|[before IH]]; [discriminate| |].
  - exists p. cbn [join_newline last] in *. rewrite IH. reflexivity.
  - exists (p ++ newline :: before). cbn [join_newline last] in *.
    rewrite IH, <- app_assoc. reflexivity.
Qed.

(** The last piece of a split is what follows the last line break. *)
Lemma last_piece_after_last_break s :
  Forall (fun c => c <> newline) (last (split_newline s) [])
  /\ (s = last (split_newline s) []
      \/ exists before, s = before ++ newline :: last (split_newline s) []).
Proof.
  pose proof (StrFacts.split_newline_not_nil s) as Hne.
  pose proof (StrFacts.split_newline_pieces s) as Hp.
  pose proof (StrFacts.join_split_newline s) as Hj.
  split.
  - rewrite Forall_forall in Hp. apply Hp.
    destruct (exists_last Hne) as [init [x E]]. rewrite E, last_last.
    apply in_or_app. right. left. reflexivity.
  - destruct (join_newline_last Hne) as [H|[before H]]; rewrite Hj in H.
    + left. exact H.
    + right. exists before. exact H.
Qed.

End MoreStrFacts.

(** ** Discovery *)

Section DiscoveryFacts.
Context {World : Type} (os : OS World).

Lemma keep_otf_files_sound directory names w :
  exists kept,
    fst (keep_otf_files os directory names w) = map (os_path_join os directory) kept
    /\ subsequence kept names
    /\ Forall (fun f => matches_otf f = true) kept.
Proof.
  revert w. induction names as [|f names IH]; intros w.
  - exists []. repeat split; constructor.
  - cbn [keep_otf_files]. fold (matches_otf f).
    destruct (matches_otf f) eqn:Hm.
    + destruct (os_path_isfile os (os_path_join os directory f) w) as [is_file w1].
      destruct (IH w1) as (kept & Hk & Hs & Hall).
      destruct (keep_otf_files os directory names w1) as [files w2].
      simpl in Hk. subst files. destruct is_file.
      * exists (f :: kept). repeat split; [constructor; exact Hs|].
        constructor; assumption.
      * exists kept. repeat split; [constructor; exact Hs|exact Hall].
    + destruct (IH w) as (kept & Hk & Hs & Hall).
      exists kept. repeat split; [exact Hk|constructor; exact Hs|exact Hall].
Qed.

Lemma keep_otf_files_stable is_file directory names w :
  stable_files os is_file ->
  keep_otf_files os directory names w =
  (map (os_path_join os directory)
       (filter (fun f => matches_otf f && is_file (os_path_join os directory f))
               names),
   w).
Proof.
  intros Hst. induction names as [|f names IH]; [reflexivity|].
  cbn [keep_otf_files filter]. fold (matches_otf f).
  destruct (matches_otf f); [|exact IH].
  rewrite Hst, IH. cbn [andb]. destruct (is_file _); reflexivity.
Qed.

Lemma subsequence_length {A} (l l' : list A) :
  subsequence l l' -> (length l <= length l')%nat.
Proof. induction 1; simpl; lia. Qed.

End DiscoveryFacts.

(** ** The progress bar *)

Module MoreProgressFacts.

(** The bar of an iteration within range. *)
Lemma bar_of_iteration iteration total :
  (1 <= total)%Z -> (0 <= iteration <= total)%Z ->
  let filled := Z.to_nat (50 * iteration / total) in
  exists percent,
    print_progress_bar iteration total =
    inr (EvProgressBar iteration total percent
           (repeat 9608%N filled ++ repeat 45%N (50 - filled))
           (iteration =? total)%Z)
    /\ (filled <= 50)%nat
    /\ (filled = 50%nat <-> iteration = total).
Proof.
  intros Ht Hi filled. unfold print_progress_bar, truediv, floordiv.
  rewrite FloatFacts.float_of_Z_pos_not_zero by lia.
  destruct (total =? 0)%Z eqn:E; [apply Z.eqb_eq in E; lia|].
  change progress_fill with [9608%N]. change (utf8 "-") with [45%N].
  rewrite !MoreStrFacts.repeat_str_single. unfold progress_length.
  assert (Hq : (0 <= 50 * iteration / total <= 50)%Z).
  { split; [apply Z.div_pos; lia|apply Z.div_le_upper_bound; lia]. }
  replace (Z.to_nat (50 - 50 * iteration / total)) with (50 - filled)%nat
    by (subst filled; lia).
  eexists. split; [reflexivity|]. split; [subst filled; lia|].
  subst filled. split.
  - intros H. assert (Hq50 : (50 * iteration / total = 50)%Z) by lia.
    assert (50 * total <= 50 * iteration)%Z; [|lia].
    pose proof (Z.div_mod (50 * iteration) total ltac:(lia)).
    pose proof (Z.mod_pos_bound (50 * iteration) total ltac:(lia)).
    nia.
  - intros ->. rewrite Z.div_mul by lia. reflexivity.
Qed.

End MoreProgressFacts.

(** ** The loop, event by event *)

Section MoreLoopFacts.
Context {World : Type} (os : OS World).

Local Open Scope Z_scope.

Lemma numbers_from_cons start n :
  numbers_from start (S n) = (start + 1) :: numbers_from (start + 1) n.
Proof.
  unfold numbers_from. cbn [seq map]. f_equal.
  rewrite <- seq_shift, map_map. apply map_ext. intros k. lia.
Qed.

Lemma numbers_from_bounds start n i :
  In i (numbers_from start n) -> start < i <= start + Z.of_nat n.
Proof.
  unfold numbers_from. intros H. apply in_map_iff in H.
  destruct H as [k [<- H]]. apply in_seq in H. lia.
Qed.

(** One turn on a future that returned a dictionary: the two events
    written, exactly. *)
Lemma collect_one_returned total future_to_file st future result w :
  1 <= total -> 0 <= processed_count st < total ->
  In future (map fst future_to_file) ->
  fut_outcome future = inr (Some result) ->
  exists st' percent bar,
    collect_one os total future_to_file st future w =
    (inr st',
     [EvProgressBar (processed_count st + 1) total percent bar
        (processed_count st + 1 =? total);
      EvResultLine (processed_count st + 1) total
        (filename_display_of (filename result)) (success result) (time result)
        (if success result then None else Some (firstn 50 (error result)))],
     w)
    /\ processed_count st' = processed_count st + 1.
Proof.
  intros Ht Hp Hin Hout.
  destruct (PoolFacts.dict_get_key future_to_file future Hin) as [file Hget].
  destruct (@ProgressFacts.print_progress_bar_defined
              (processed_count st + 1) total Ht) as [percent [bar [Hbar _]]];
    [lia|].
  unfold collect_one, result_or_wrapped, Py.bind, Py.lift, Py.emit, Py.ret.
  rewrite Hget, Hout, Hbar. simpl.
  eexists _, percent, bar. split; reflexivity.
Qed.

Lemma collect_loop_returned total future_to_file completed :
  forall st w,
  1 <= total -> 0 <= processed_count st ->
  processed_count st + Z.of_nat (length completed) <= total ->
  Forall (fun future => In future (map fst future_to_file)
                        /\ exists result, fut_outcome future = inr (Some result))
         completed ->
  exists st' out,
    for_each completed (collect_one os total future_to_file) st w
      = (inr st', out, w)
    /\ bar_iterations out = numbers_from (processed_count st) (length completed)
    /\ closing_bars out =
       filter (fun i => i =? total)
              (numbers_from (processed_count st) (length completed))
    /\ shown_lines out =
       map (fun '(i, result) => line_of_result i result)
           (combine (numbers_from (processed_count st) (length completed))
                    (returned_results completed))
    /\ submissions out = [] /\ reports out = [] /\ failure_entries out = []
    /\ failure_headers out = [].
Proof.
  induction completed as [|future completed IH]; intros st w Ht Hp Hle Hall.
  - exists st, []. repeat split; reflexivity.
  - inversion Hall as [|? ? [Hin [result Hres]] Hall']; subst.
    cbn [length] in Hle |- *. rewrite Nat2Z.inj_succ in Hle.
    destruct (@collect_one_returned total future_to_file st future result w Ht)
      as (st1 & percent & bar & Hrun1 & Hp1); [lia|assumption|assumption|].
    destruct (IH st1 w Ht) as (st2 & out2 & Hrun2 & Hb & Hc & Hs & H1 & H2 & H3 & H4);
      [lia|lia|assumption|].
    eexists st2, _. cbn [for_each]. unfold Py.bind at 1.
    rewrite Hrun1, Hrun2. split; [reflexivity|].
    rewrite numbers_from_cons, <- Hp1.
    unfold returned_results. cbn [flat_map]. rewrite Hres.
    fold (returned_results completed).
    cbn [bar_iterations closing_bars shown_lines submissions reports
         failure_entries failure_headers flat_map app combine map filter].
    fold (bar_iterations out2) (closing_bars out2) (shown_lines out2)
         (submissions out2) (reports out2) (failure_entries out2)
         (failure_headers out2).
    rewrite Hb, Hc, Hs, H1, H2, H3, H4, Hp1.
    repeat split; try reflexivity.
    destruct (processed_count st + 1 =? total); reflexivity.
Qed.

End MoreLoopFacts.

(** ** A whole run *)

Section RunFacts.
Context {World : Type} (os : OS World).
Variable IS_WINDOWS : bool.

Local Open Scope Z_scope.

Lemma flat_map_nothing {A B} (g : A -> list B) l :
  (forall x, In x l -> g x = []) -> flat_map g l = [].
Proof.
  induction l as [|x l IH]; intros H; [reflexivity|].
  cbn [flat_map]. rewrite (H x (or_introl eq_refl)), IH; [reflexivity|].
  intros y Hy. apply H. right. exact Hy.
Qed.

Lemma submissions_of_submitted files : submissions (map EvSubmitted files) = files.
Proof.
  unfold submissions. induction files as [|f files IH]; [reflexivity|].
  cbn [map flat_map app]. rewrite IH. reflexivity.
Qed.

Lemma submitted_files_projection files :
  flat_map (fun ev => match ev with EvSubmitted file => [file] | _ => [] end)
           (map EvSubmitted files) = files.
Proof. exact (submissions_of_submitted files). Qed.

Lemma failure_entries_of_entries results :
  failure_entries (map entry_of results) = map name_and_message results.
Proof.
  unfold failure_entries. induction results as [|r results IH]; [reflexivity|].
  cbn [map flat_map app entry_of]. rewrite IH. reflexivity.
Qed.

(** Among futures that all returned a dictionary, each is a success or
    one of the failed results. *)
Lemma succeeded_or_failed futures :
  Forall (fun future => exists result, fut_outcome future = inr (Some result))
         futures ->
  (length (filter task_succeeded futures) + length (failed_results futures)
   = length futures)%nat.
Proof.
  unfold failed_results, returned_results.
  induction 1 as [|future futures [result Hr] _ IH]; [reflexivity|].
  cbn [filter flat_map length]. unfold task_succeeded at 1. rewrite Hr.
  cbn [app filter]. destruct (success result); cbn [negb length]; lia.
Qed.

Lemma last_number (n : nat) :
  (1 <= n)%nat ->
  filter (fun i => i =? Z.of_nat n) (numbers_from 0 n) = [Z.of_nat n].
Proof.
  intros Hn. destruct n as [|n]; [lia|].
  unfold numbers_from. rewrite seq_S, map_app, filter_app. cbn [map filter].
  replace (0 + Z.of_nat (1 + n)) with (Z.of_nat (S n)) by lia.
  rewrite Z.eqb_refl.
  assert (Hnone : forall l : list Z,
            (forall i, In i l -> (i =? Z.of_nat (S n)) = false) ->
            filter (fun i => i =? Z.of_nat (S n)) l = []).
  { induction l as [|i l IH]; intros H; [reflexivity|].
    cbn [filter]. rewrite (H i (or_introl eq_refl)). apply IH.
    intros j Hj. apply H. right. exact Hj. }
  rewrite Hnone; [reflexivity|].
  intros i Hi. apply in_map_iff in Hi. destruct Hi as [k [<- Hk]].
  apply in_seq in Hk. apply Z.eqb_neq. lia.
Qed.

(** What a run that found files writes, kind by kind. *)
Lemma main_projections sched w files w2 :
  get_otf_files os font_dir (set_console_utf8 os IS_WINDOWS w) = (inr files, w2) ->
  files <> [] ->
  let futures := map fst (submit_all os sched 0 files) in
  let completed := as_completed (picks sched) futures in
  let trace := trace_of (main os IS_WINDOWS sched w) in
  let succeeded := Z.of_nat (length (filter task_succeeded futures)) in
  status_of (main os IS_WINDOWS sched w) = inr tt
  /\ submissions trace = files
  /\ bar_iterations trace = numbers_from 0 (length files)
  /\ closing_bars trace = [Z.of_nat (length files)]
  /\ shown_lines trace =
     map (fun '(i, result) => line_of_result i result)
         (combine (numbers_from 0 (length files)) (returned_results completed))
  /\ reports trace = [(succeeded, Z.of_nat (length (failed_results futures)))]
  /\ failure_entries trace = map name_and_message (failed_results futures)
  /\ failure_headers trace =
     match failed_results futures with [] => [] | _ => [tt] end.
Proof.
  intros Hget Hne futures completed trace succeeded.
  destruct (main_dispatching os IS_WINDOWS sched w Hget Hne)
    as (stats & out & Hrun & _ & Hsf & Hs & _ & _ & _ & Hmain).
  fold futures in Hs. fold futures completed in Hrun.
  assert (Hret : Forall (fun future => exists result,
                           fut_outcome future = inr (Some result)) futures)
    by apply PoolFacts.submit_all_returned.
  assert (Hperm : Permutation completed futures)
    by apply PoolFacts.as_completed_perm.
  assert (Hlen : length completed = length files).
  { rewrite (Permutation_length Hperm). unfold futures.
    rewrite length_map. apply PoolFacts.submit_all_length. }
  assert (Hpos : 1 <= Z.of_nat (length files)).
  { destruct files; [contradiction|]. simpl length. lia. }
  destruct (@collect_loop_returned World os (Z.of_nat (length files))
              (submit_all os sched 0 files) completed
              (mkStats 0 0 0 (PInt 0)) (snd (time_time os (snd (datetime_now os
                 (snd (os_cpu_count os w2)))))) Hpos)
    as (stats' & out' & Hrun' & Hb & Hc & Hl & H1 & H2 & H3 & H4).
  { simpl. lia. }
  { simpl. rewrite Hlen. lia. }
  { apply Forall_forall. intros future Hin.
    apply (Permutation_in _ Hperm) in Hin. split; [exact Hin|].
    revert future Hin. apply Forall_forall. exact Hret. }
  unfold collect_results in Hrun. rewrite Hrun in Hrun'.
  injection Hrun' as <- <-.
  cbn [processed_count] in Hb, Hc, Hl. rewrite Hlen in Hb, Hc, Hl.
  rewrite last_number in Hc by lia.
  pose proof (succeeded_or_failed Hret) as Hcount.
  assert (Hfuts : length futures = length files).
  { unfold futures. rewrite length_map. apply PoolFacts.submit_all_length. }
  assert (Hfailed : failed_count stats = Z.of_nat (length (failed_results futures)))
    by lia.
  assert (Hlist :
    failure_listing (failed_count stats) (submit_all os sched 0 files) =
    match failed_results futures with
    | [] => []
    | _ => EvFailureHeader :: map entry_of (failed_results futures)
    end).
  { destruct (failed_results futures) as [|r rs] eqn:E.
    - unfold failure_listing. rewrite Hfailed. reflexivity.
    - rewrite failure_listing_returned; [|rewrite Hfailed; simpl; lia|exact Hret].
      fold futures. fold (failed_results futures). rewrite E. reflexivity. }
  subst trace. rewrite Hmain. unfold status_of, trace_of. cbn [fst snd].
  split; [reflexivity|].
  set (listing := failure_listing (failed_count stats)
                    (submit_all os sched 0 files)) in *.
  assert (Hnone : forall B (g : event -> list B),
            g EvFailureHeader = [] ->
            (forall name message, g (EvFailureEntry name message) = []) ->
            flat_map g listing = []).
  { intros B g Hh He. apply flat_map_nothing. intros ev Hev.
    rewrite Hlist in Hev. destruct (failed_results futures); [contradiction|].
    destruct Hev as [<-|Hev]; [exact Hh|].
    apply in_map_iff in Hev. destruct Hev as [r' [<- _]]. apply He. }
  assert (Hfe : failure_entries listing
                = map name_and_message (failed_results futures)).
  { rewrite Hlist. destruct (failed_results futures) as [|r rs]; [reflexivity|].
    apply (failure_entries_of_entries (r :: rs)). }
  assert (Hfh : failure_headers listing
                = match failed_results futures with [] => [] | _ => [tt] end).
  { rewrite Hlist. destruct (failed_results futures) as [|r rs]; [reflexivity|].
    unfold failure_headers. cbn [flat_map app]. f_equal.
    apply flat_map_nothing. intros ev Hev.
    apply in_map_iff in Hev. destruct Hev as [r' [<- _]]. reflexivity. }
  clearbody listing.
  unfold submissions, bar_iterations, closing_bars, shown_lines, reports,
    failure_entries, failure_headers in *.
  cbn [flat_map app]. rewrite !flat_map_app. cbn [flat_map app].
  rewrite !flat_map_app. cbn [flat_map app].
  rewrite submitted_files_projection, H1, H2, H3, H4, Hb, Hc, Hl, Hfe, Hfh.
  rewrite !(@flat_map_nothing _ _ _ (map EvSubmitted files))
    by (intros ev Hev; apply in_map_iff in Hev; destruct Hev as [f [<- _]];
        reflexivity).
  rewrite !Hnone by reflexivity.
  cbn [app]. rewrite !app_nil_r.
  repeat split; try reflexivity.
  unfold succeeded. rewrite Hs, Hfailed. reflexivity.
Qed.

End RunFacts.

Section WholeRunFacts.
Context {World : Type} (os : OS World).
Variable IS_WINDOWS : bool.

Local Open Scope Z_scope.

(** What any run writes, kind by kind, in terms of the files it found and
    the futures it created. *)
Lemma main_run_kinds sched w :
  let files := found_files os IS_WINDOWS w in
  let futures := futures_of os IS_WINDOWS sched w in
  let completed := as_completed (picks sched) futures in
  let trace := trace_of (main os IS_WINDOWS sched w) in
  submissions trace = files
  /\ bar_iterations trace = numbers_from 0 (length files)
  /\ closing_bars trace =
     match files with [] => [] | _ :: _ => [Z.of_nat (length files)] end
  /\ shown_lines trace =
     map (fun '(i, result) => line_of_result i result)
         (combine (numbers_from 0 (length files)) (returned_results completed))
  /\ reports trace =
     match files with
     | [] => []
     | _ :: _ => [(Z.of_nat (length (filter task_succeeded futures)),
                   Z.of_nat (length (failed_results futures)))]
     end
  /\ failure_entries trace = map name_and_message (failed_results futures)
  /\ failure_headers trace =
     match failed_results futures with [] => [] | _ :: _ => [tt] end.
Proof.
  unfold futures_of, found_files.
  destruct (main_cases os IS_WINDOWS w)
    as [(e & w2 & H)|[(w2 & H)|(files & w2 & H & Hne)]].
  - rewrite (main_directory_error os IS_WINDOWS sched w H), H.
    cbn. repeat split; reflexivity.
  - rewrite (main_no_files os IS_WINDOWS sched w H), H.
    cbn. repeat split; reflexivity.
  - destruct (main_projections os IS_WINDOWS sched w H Hne)
      as (_ & H1 & H2 & H3 & H4 & H5 & H6 & H7).
    rewrite H. cbn [fst]. cbn zeta.
    destruct files as [|f files]; [contradiction|].
    repeat split; assumption.
Qed.

Lemma submit_all_outcomes (Q : exn + option ConversionResult -> Prop) sched k files :
  (forall file w, Q (fst (convert_otf_to_ttf os file w))) ->
  Forall (fun future => Q (fut_outcome future))
         (map fst (submit_all os sched k files)).
Proof.
  intros HQ. revert k. induction files as [|f files IH]; intros k;
    simpl; constructor; [apply HQ|apply IH].
Qed.

Lemma submit_all_ext sched sched' k files :
  (forall i, task_world sched i = task_world sched' i) ->
  submit_all os sched k files = submit_all os sched' k files.
Proof.
  intros H. revert k. induction files as [|f files IH]; intros k;
    [reflexivity|]. cbn [submit_all]. rewrite H, IH. reflexivity.
Qed.

Lemma submit_all_id_ge sched k files future file :
  In (future, file) (submit_all os sched k files) -> (k <= fut_id future)%nat.
Proof.
  revert k. induction files as [|f files IH]; intros k; [intros []|].
  cbn [submit_all]. intros [[= <- _]|H]; [simpl; lia|].
  apply IH in H. lia.
Qed.

Lemma dict_get_submitted sched k files future file :
  In (future, file) (submit_all os sched k files) ->
  dict_get (submit_all os sched k files) future = inr file.
Proof.
  revert k. induction files as [|f files IH]; intros k; [intros []|].
  cbn [submit_all dict_get]. intros [[= <- <-]|H].
  - cbn [fut_id]. rewrite Nat.eqb_refl. reflexivity.
  - cbn [fut_id]. pose proof (submit_all_id_ge _ _ _ _ _ H) as Hge.
    destruct (k =? fut_id future)%nat eqn:E; [apply Nat.eqb_eq in E; lia|].
    apply IH, H.
Qed.

(** What decides the result of a call. *)
Lemma convert_result_cases file_path w result w' :
  convert_otf_to_ttf os file_path w = (inr (Some result), w') ->
  filename result = os_path_basename os file_path
  /\ (success result = true <->
      fst (os_path_exists os file_path (world_in_try os w)) = true
      /\ exists process,
           fst (subprocess_run os [utf8 "otf2ttf"; file_path]
                  (snd (os_path_exists os file_path (world_in_try os w))))
             = inr process
           /\ returncode process = 0)
  /\ (success result = true -> error result = []).
Proof.
  destruct (fst (os_path_exists os file_path (world_in_try os w))) eqn:Ex.
  - destruct (fst (subprocess_run os [utf8 "otf2ttf"; file_path]
                     (snd (os_path_exists os file_path (world_in_try os w)))))
      as [e|process] eqn:Run.
    + rewrite (convert_run_raises os _ _ Ex Run). intros [= <- <-]. simpl.
      split; [reflexivity|]. split; [|discriminate].
      split; [discriminate|]. intros [_ [p [H _]]]. discriminate.
    + destruct (Z.eq_dec (returncode process) 0) as [Hz|Hnz].
      * rewrite (convert_exit_zero os _ _ Ex Run Hz). intros [= <- <-]. simpl.
        split; [reflexivity|]. split; [|reflexivity].
        split; [|reflexivity]. intros _. split; [reflexivity|]. eauto.
      * rewrite (convert_exit_nonzero os _ _ Ex Run Hnz). intros [= <- <-]. simpl.
        split; [reflexivity|]. split; [|discriminate].
        split; [discriminate|]. intros [_ [p [[= <-] H]]]. contradiction.
  - rewrite (convert_missing_file os _ _ Ex). intros [= <- <-]. simpl.
    split; [reflexivity|]. split; [|discriminate].
    split; [discriminate|]. intros [H _]. discriminate.
Qed.

Lemma filter_none {A} (f : A -> bool) l :
  Forall (fun x => f x = false) l -> filter f l = [].
Proof. induction 1 as [|x l Hx _ IH]; [reflexivity|]. simpl. rewrite Hx. exact IH. Qed.

Lemma filter_all {A} (f : A -> bool) l :
  Forall (fun x => f x = true) l -> filter f l = l.
Proof. induction 1 as [|x l Hx _ IH]; [reflexivity|]. simpl. rewrite Hx, IH. reflexivity. Qed.

(** The converter cannot be run: no task succeeds. *)
Lemma no_task_succeeds sched k files :
  (forall args w, exists e, fst (subprocess_run os args w) = inl e) ->
  Forall (fun future => task_succeeded future = false)
         (map fst (submit_all os sched k files)).
Proof.
  intros Hrun.
  apply (submit_all_outcomes
           (fun outcome => match outcome with
                           | inr (Some result) => success result
                           | _ => false
                           end = false)).
  intros file w. destruct (convert_returns os file w) as [ok [msg H]].
  rewrite H. cbn [fst success]. destruct ok eqn:E; [|reflexivity].
  destruct (convert_result_cases _ _ H) as (_ & Hs & _).
  destruct (proj1 Hs eq_refl) as (_ & p & Hp & _).
  destruct (Hrun [utf8 "otf2ttf"; file]
              (snd (os_path_exists os file (world_in_try os w)))) as [e He].
  rewrite He in Hp. discriminate.
Qed.

(** Every file is there and the converter always exits with status 0:
    every task succeeds. *)
Lemma every_task_succeeds sched k files :
  (forall path w, fst (os_path_exists os path w) = true) ->
  (forall args w, exists process,
      fst (subprocess_run os args w) = inr process /\ returncode process = 0) ->
  Forall (fun future => task_succeeded future = true)
         (map fst (submit_all os sched k files)).
Proof.
  intros Hex Hrun.
  apply (submit_all_outcomes
           (fun outcome => match outcome with
                           | inr (Some result) => success result
                           | _ => false
                           end = true)).
  intros file w.
  destruct (Hrun [utf8 "otf2ttf"; file]
              (snd (os_path_exists os file (world_in_try os w))))
    as (process & Hp & Hz).
  rewrite (convert_exit_zero os _ _ (Hex _ _) Hp Hz). reflexivity.
Qed.

End WholeRunFacts.

(** * Properties of the discovery, the converter and the display *)

(** X1. The extension test of [get_otf_files] looks at the last four
    characters of the name only, and accepts each letter in either case. *)
Theorem matches_otf_iff name :
  matches_otf name = true <->
  exists stem o t f,
    name = stem ++ [46; o; t; f]%N
    /\ (o = 111 \/ o = 79)%N /\ (t = 116 \/ t = 84)%N /\ (f = 102 \/ f = 70)%N.
Proof.
  unfold matches_otf. rewrite MoreStrFacts.endswith_iff.
  change (utf8 ".otf") with [46; 111; 116; 102]%N. unfold lower. split.
  - intros [stem' H]. apply map_eq_app in H.
    destruct H as (stem & ext & -> & _ & Hext).
    destruct ext as [|d [|o [|t [|f [|x ext]]]]]; try discriminate.
    injection Hext as Hd Ho Ht Hf.
    apply (proj1 (MoreStrFacts.lower_char_dot _)) in Hd. subst d.
    apply MoreStrFacts.lower_char_letter in Ho; [|lia].
    apply MoreStrFacts.lower_char_letter in Ht; [|lia].
    apply MoreStrFacts.lower_char_letter in Hf; [|lia].
    exists stem, o, t, f. repeat split; assumption.
  - intros (stem & o & t & f & -> & Ho & Ht & Hf).
    exists (map lower_char stem). rewrite map_app. f_equal. simpl.
    assert (lower_char o = 111%N) as -> by (apply MoreStrFacts.lower_char_letter; lia).
    assert (lower_char t = 116%N) as -> by (apply MoreStrFacts.lower_char_letter; lia).
    assert (lower_char f = 102%N) as -> by (apply MoreStrFacts.lower_char_letter; lia).
    reflexivity.
Qed.

(** X2. What [get_otf_files] returns is the listing with names left out
    and the directory joined in front: the order of the listing is kept,
    no name is returned more often than it is listed, and every name kept
    ends in [.otf] in some mix of cases. *)
Theorem get_otf_files_sound
    {World : Type} (os : OS World) directory w files w' :
  get_otf_files os directory w = (inr files, w') ->
  exists names kept,
    fst (os_listdir os directory w) = inr names
    /\ files = map (os_path_join os directory) kept
    /\ subsequence kept names
    /\ Forall (fun f => matches_otf f = true) kept
    /\ (length files <= length names)%nat.
Proof.
  unfold get_otf_files.
  destruct (os_listdir os directory w) as [[e|names] w1]; [discriminate|].
  destruct (keep_otf_files_sound os directory names w1) as (kept & Hk & Hs & Hall).
  destruct (keep_otf_files os directory names w1) as [files' w2].
  simpl in Hk. intros [= <- <-].
  exists names, kept. repeat split; try assumption.
  rewrite Hk, length_map. apply subsequence_length, Hs.
Qed.

Lemma get_otf_files_sound_witness :
  exists names kept,
    fst (os_listdir (Toy.toy_os Toy.three_fonts) font_dir 0%Z) = inr names
    /\ Toy.three_paths = map (os_path_join (Toy.toy_os Toy.three_fonts) font_dir) kept
    /\ subsequence kept names
    /\ Forall (fun f => matches_otf f = true) kept
    /\ (length Toy.three_paths <= length names)%nat.
Proof.
  exact (@get_otf_files_sound _ (Toy.toy_os Toy.three_fonts) font_dir 0%Z
           Toy.three_paths 0%Z eq_refl).
Defined.

(** X3. On a file system that answers [isfile] the same way throughout,
    [get_otf_files] returns exactly the listed names that end in [.otf]
    and are regular files, joined to the directory, in listing order, and
    leaves the world as the listing left it. *)
Theorem get_otf_files_stable
    {World : Type} (os : OS World) is_file directory w names w' :
  stable_files os is_file ->
  os_listdir os directory w = (inr names, w') ->
  get_otf_files os directory w =
  (inr (map (os_path_join os directory)
            (filter (fun f => matches_otf f
                              && is_file (os_path_join os directory f))
                    names)),
   w').
Proof.
  intros Hst Hlist. unfold get_otf_files. rewrite Hlist.
  rewrite (keep_otf_files_stable directory names w' Hst). reflexivity.
Qed.

Lemma get_otf_files_stable_witness :
  get_otf_files (Toy.toy_os Toy.three_fonts) font_dir 0%Z =
  (inr Toy.three_paths, 0%Z).
Proof.
  exact (@get_otf_files_stable _ (Toy.toy_os Toy.three_fonts) (fun _ => true)
           font_dir 0%Z _ 0%Z (fun _ _ => eq_refl) eq_refl).
Defined.

(** X4. The file is missing when the call looks for it: the result is the
    failure ["文件不存在"] under the base name of the path, and the
    converter is not launched: the call returns the same result and
    leaves the same world whatever [subprocess.run] would have done. *)
Theorem missing_file_never_launches
    {World : Type} (os : OS World) run file_path w :
  fst (os_path_exists os file_path (world_in_try os w)) = false ->
  (exists elapsed_time w',
     convert_otf_to_ttf os file_path w =
     (inr (Some (mkResult (os_path_basename os file_path) false
                          (utf8 "文件不存在") elapsed_time)), w'))
  /\ convert_otf_to_ttf (with_subprocess_run os run) file_path w
     = convert_otf_to_ttf os file_path w.
Proof.
  intros Hex. split.
  - eexists _, _. apply (convert_missing_file os _ _ Hex).
  - rewrite (convert_missing_file os _ _ Hex).
    rewrite (convert_missing_file (with_subprocess_run os run) file_path w Hex).
    unfold elapsed, world_at_finally, world_in_try in *. simpl.
    destruct (os_path_exists os file_path (snd (time_time os w))) as [ex w2].
    simpl in Hex. subst ex. reflexivity.
Qed.

Lemma missing_file_never_launches_witness :
  convert_otf_to_ttf
    (with_subprocess_run (Toy.toy_os Toy.no_directory)
       (fun _ w => (inl (mkExn OSError []), (w + 100)%Z)))
    (utf8 "D:\gone.otf") 0%Z
  = convert_otf_to_ttf (Toy.toy_os Toy.no_directory) (utf8 "D:\gone.otf") 0%Z.
Proof.
  exact (proj2 (@missing_file_never_launches _ (Toy.toy_os Toy.no_directory)
                  (fun _ w => (inl (mkExn OSError []), (w + 100)%Z))
                  (utf8 "D:\gone.otf") 0%Z eq_refl)).
Defined.

(** X5. A call reports success exactly when the file was there and the
    converter ran to exit status 0; a successful result has an empty
    error, and every result carries the base name of the path. *)
Theorem success_iff_exit_zero
    {World : Type} (os : OS World) file_path w result w' :
  convert_otf_to_ttf os file_path w = (inr (Some result), w') ->
  filename result = os_path_basename os file_path
  /\ (success result = true <->
      fst (os_path_exists os file_path (world_in_try os w)) = true
      /\ exists process,
           fst (subprocess_run os [utf8 "otf2ttf"; file_path]
                  (snd (os_path_exists os file_path (world_in_try os w))))
             = inr process
           /\ returncode process = 0%Z)
  /\ (success result = true -> error result = []).
Proof. apply convert_result_cases. Qed.

Lemma success_iff_exit_zero_witness :
  exists result w',
    convert_otf_to_ttf (Toy.toy_os Toy.three_fonts) (utf8 "D:\fonts\a.otf") 0%Z
      = (inr (Some result), w')
    /\ filename result = utf8 "a.otf"
    /\ success result = true
    /\ error result = [].
Proof.
  eexists _, _. split; [reflexivity|].
  destruct (@success_iff_exit_zero _ (Toy.toy_os Toy.three_fonts)
              (utf8 "D:\fonts\a.otf") 0%Z _ _ eq_refl) as (H1 & H2 & H3).
  split; [exact H1|]. split; [reflexivity|]. apply H3. reflexivity.
Defined.

(** X6. After a non-zero exit the error is the text that follows the last
    line break of the stripped error stream: it holds no line break, the
    stripped stream ends with it, and it is empty only when the stream
    holds nothing but white space. *)
Theorem nonzero_exit_error_is_last_line
    {World : Type} (os : OS World) file_path w process :
  fst (os_path_exists os file_path (world_in_try os w)) = true ->
  fst (subprocess_run os [utf8 "otf2ttf"; file_path]
         (snd (os_path_exists os file_path (world_in_try os w)))) = inr process ->
  returncode process <> 0%Z ->
  exists result w',
    convert_otf_to_ttf os file_path w = (inr (Some result), w')
    /\ success result = false
    /\ Forall (fun c => c <> newline) (error result)
    /\ (strip (stderr process) = error result
        \/ exists before,
             strip (stderr process) = before ++ newline :: error result)
    /\ (error result = [] <-> strip (stderr process) = []).
Proof.
  intros Ex Run Hrc.
  eexists _, _. split; [apply (convert_exit_nonzero os _ _ Ex Run Hrc)|].
  simpl. split; [reflexivity|].
  destruct (MoreStrFacts.last_piece_after_last_break (strip (stderr process)))
    as [Hno Hsuf].
  split; [exact Hno|]. split; [exact Hsuf|]. split.
  - intros H. destruct (list_eq_dec N.eq_dec (strip (stderr process)) [])
      as [E|E]; [exact E|].
    exfalso. exact (visible_stream_message _ E H).
  - intros ->. reflexivity.
Qed.

Lemma nonzero_exit_error_is_last_line_witness :
  exists result w',
    convert_otf_to_ttf (Toy.toy_os Toy.three_fonts) (utf8 "D:\fonts\c.otf") 0%Z
      = (inr (Some result), w')
    /\ success result = false
    /\ Forall (fun c => c <> newline) (error result)
    /\ (strip (utf8 "bad glyph table") = error result
        \/ exists before,
             strip (utf8 "bad glyph table") = before ++ newline :: error result)
    /\ (error result = [] <-> strip (utf8 "bad glyph table") = []).
Proof.
  exact (@nonzero_exit_error_is_last_line _ (Toy.toy_os Toy.three_fonts)
           (utf8 "D:\fonts\c.otf") 0%Z
           (mkCompletedProcess 1 [] (utf8 "bad glyph table"))
           eq_refl eq_refl ltac:(discriminate)).
Defined.

(** X10. The name shown on a result line is the file name itself when it
    has at most 40 characters, and its first 40 characters followed by
    two dots when it is longer; it never has more than 42 characters. *)
Theorem filename_display_bounds name :
  ((length name <= 40)%nat -> filename_display_of name = name)
  /\ ((40 < length name)%nat ->
      filename_display_of name = firstn 40 name ++ utf8 ".."
      /\ length (filename_display_of name) = 42%nat)
  /\ (length (filename_display_of name) <= 42)%nat.
Proof.
  unfold filename_display_of.
  assert (Hskip : (length name <= 40)%nat -> skipn 40 name = [])
    by (intros H; apply skipn_all2, H).
  assert (Hfirst : (length name <= 40)%nat -> firstn 40 name = name)
    by (intros H; apply firstn_all2, H).
  split; [intros H; rewrite (Hskip H), (Hfirst H), app_nil_r; reflexivity|].
  assert (Hlong : (40 < length name)%nat ->
                  exists c rest, skipn 40 name = c :: rest).
  { intros H. destruct (skipn 40 name) as [|c rest] eqn:E; [|eauto].
    pose proof (length_skipn 40 name) as Hl. rewrite E in Hl. simpl in Hl. lia. }
  split.
  - intros H. destruct (Hlong H) as (c & rest & ->).
    split; [reflexivity|]. rewrite length_app, length_firstn.
    change (length (utf8 "..")) with 2%nat. lia.
  - destruct (Nat.le_gt_cases (length name) 40) as [H|H].
    + rewrite (Hskip H), (Hfirst H), app_nil_r. lia.
    + destruct (Hlong H) as (c & rest & ->). rewrite length_app, length_firstn.
      change (length (utf8 "..")) with 2%nat. lia.
Qed.

Lemma filename_display_bounds_witness :
  filename_display_of (utf8 "a.otf") = utf8 "a.otf"
  /\ length (filename_display_of
               (utf8 "a-font-file-with-a-name-of-more-than-forty-characters.otf"))
     = 42%nat.
Proof.
  split.
  - apply (proj1 (filename_display_bounds (utf8 "a.otf"))). simpl. lia.
  - apply (proj1 (proj2 (filename_display_bounds
      (utf8 "a-font-file-with-a-name-of-more-than-forty-characters.otf")))).
    simpl. lia.
Defined.

(** X7. [print_header] prints a rule of 80 [=], the title and the same
    rule again (followed by an empty line), each in bold cyan.  A title of
    at most 80 characters is padded with spaces to exactly 80, with as
    many on the left as on the right or one fewer; a longer title is
    printed whole, without padding. *)
Theorem print_header_centres_title title :
  exists left right,
    print_header title =
    [Color.BOLD ++ Color.CYAN ++ repeat 61%N 80 ++ Color.RESET;
     Color.BOLD ++ Color.CYAN
       ++ (repeat space left ++ title ++ repeat space right) ++ Color.RESET;
     Color.BOLD ++ Color.CYAN ++ repeat 61%N 80 ++ Color.RESET ++ [newline]]
    /\ (left + right = 80 - length title)%nat
    /\ (left <= right <= left + 1)%nat.
Proof.
  unfold print_header, center, TERMINAL_WIDTH.
  change (utf8 "=") with [61%N]. rewrite !MoreStrFacts.repeat_str_single.
  change (Z.to_nat 80) with 80%nat.
  destruct (80 - Z.of_nat (length title) <=? 0)%Z eqn:E.
  - apply Z.leb_le in E. exists 0%nat, 0%nat. cbn [repeat app]. rewrite app_nil_r.
    split; [reflexivity|lia].
  - apply Z.leb_gt in E.
    rewrite <- Z.land_assoc. change (Z.land 80 1) with 0%Z.
    rewrite Z.land_0_r, Z.add_0_r.
    set (marg := (80 - Z.of_nat (length title))%Z) in *.
    exists (Z.to_nat (marg / 2)), (Z.to_nat (marg - marg / 2)).
    split; [reflexivity|].
    assert (0 <= marg / 2)%Z by (apply Z.div_pos; lia).
    assert (2 * (marg / 2) <= marg < 2 * (marg / 2) + 2)%Z.
    { pose proof (Z.div_mod marg 2 ltac:(lia)).
      pose proof (Z.mod_pos_bound marg 2 ltac:(lia)). lia. }
    lia.
Qed.

(** X8. For [1 <= total < 2^1023] (so that [float(total)] is defined)
    and [0 <= iteration <= total] the bar is
    [floor(50 * iteration / total)] filled cells followed by dashes up to
    50 cells; it is full exactly when [iteration = total], which is also
    exactly when the line is closed. *)
Theorem progress_bar_shape iteration total :
  (1 <= total)%Z -> (total < 2 ^ 1023)%Z -> (0 <= iteration <= total)%Z ->
  let filled := Z.to_nat (50 * iteration / total) in
  exists percent,
    print_progress_bar iteration total =
    inr (EvProgressBar iteration total percent
           (repeat 9608%N filled ++ repeat 45%N (50 - filled))
           (iteration =? total)%Z)
    /\ (filled <= 50)%nat
    /\ (filled = 50%nat <-> iteration = total).
Proof.
  intros Ht _ Hi. apply MoreProgressFacts.bar_of_iteration; assumption.
Qed.

Lemma progress_bar_shape_witness :
  exists percent,
    print_progress_bar 3 3 =
    inr (EvProgressBar 3 3 percent (repeat 9608%N 50 ++ repeat 45%N 0) true).
Proof.
  destruct (@progress_bar_shape 3 3 ltac:(lia) eq_refl ltac:(lia))
    as [percent [H _]].
  exists percent. exact H.
Defined.

(** X9. The bar never goes back: with the same total, a later iteration
    has at least as many filled cells. *)
Theorem progress_bar_monotone i j total percent_i bar_i nl_i percent_j bar_j nl_j :
  (1 <= total)%Z -> (0 <= i <= j)%Z -> (j <= total)%Z ->
  print_progress_bar i total = inr (EvProgressBar i total percent_i bar_i nl_i) ->
  print_progress_bar j total = inr (EvProgressBar j total percent_j bar_j nl_j) ->
  (count_occ N.eq_dec bar_i 9608%N <= count_occ N.eq_dec bar_j 9608%N)%nat.
Proof.
  intros Ht Hij Hj Hi' Hj'.
  destruct (@MoreProgressFacts.bar_of_iteration i total Ht ltac:(lia)) as [pi [Ei _]].
  destruct (@MoreProgressFacts.bar_of_iteration j total Ht ltac:(lia)) as [pj [Ej _]].
  rewrite Ei in Hi'. rewrite Ej in Hj'.
  injection Hi' as _ <-. injection Hj' as _ <-.
  assert (Hc : forall a b, count_occ N.eq_dec (repeat 9608%N a ++ repeat 45%N b) 9608%N = a).
  { intros a b. rewrite count_occ_app, count_occ_repeat_eq by reflexivity.
    rewrite count_occ_repeat_neq by discriminate. lia. }
  rewrite !Hc.
  assert (H1 : (0 <= 50 * i / total)%Z) by (apply Z.div_pos; lia).
  assert (H2 : (0 <= 50 * j / total)%Z) by (apply Z.div_pos; lia).
  apply (proj1 (Z2Nat.inj_le _ _ H1 H2)).
  apply Z.div_le_mono; lia.
Qed.

Lemma progress_bar_monotone_witness :
  (count_occ N.eq_dec (repeat_str progress_fill 16 ++ repeat_str (utf8 "-") 34) 9608%N
   <= count_occ N.eq_dec (repeat_str progress_fill 33 ++ repeat_str (utf8 "-") 17) 9608%N)%nat.
Proof.
  apply (@progress_bar_monotone 1 2 3
           (S754_finite false 4691249611844266 (-47)) _ false
           (S754_finite false 4691249611844266 (-46)) _ false);
    try lia; reflexivity.
Defined.

(** * Properties of a whole run *)

(** X11. The dictionary [future_to_file] gives back, for each future, the
    file it was submitted for. *)
Theorem future_to_file_lookup
    {World : Type} (os : OS World) (sched : Schedule World) files future file :
  In (future, file) (submit_all os sched 0 files) ->
  dict_get (submit_all os sched 0 files) future = inr file.
Proof. apply dict_get_submitted. Qed.

Lemma future_to_file_lookup_witness :
  exists future,
    fut_id future = 2%nat
    /\ dict_get (submit_all (Toy.toy_os Toy.three_fonts)
                   (Toy.toy_schedule [2; 0]%nat) 0 Toy.three_paths) future
       = inr (utf8 "D:\Software\PotPlayer\otf\c.otf").
Proof.
  eexists. split; [|apply (@future_to_file_lookup _ (Toy.toy_os Toy.three_fonts)
                              (Toy.toy_schedule [2; 0]%nat) Toy.three_paths);
                    right; right; left; reflexivity].
  reflexivity.
Defined.

(** X12. [main] submits one task per file it found, in the order
    [get_otf_files] returned them, and none when it found no file or the
    listing raised. *)
Theorem one_submission_per_file
    {World : Type} (os : OS World) IS_WINDOWS (sched : Schedule World) w :
  submissions (trace_of (main os IS_WINDOWS sched w))
  = found_files os IS_WINDOWS w.
Proof. apply (main_run_kinds os IS_WINDOWS sched w). Qed.

(** X13. The progress bars of a run are numbered 1, 2, ..., N in the order
    they are written, N being the number of files found; the bar that
    closes the line (the 100% state) is written once, and it is bar N. *)
Theorem progress_numbered
    {World : Type} (os : OS World) IS_WINDOWS (sched : Schedule World) w :
  let files := found_files os IS_WINDOWS w in
  bar_iterations (trace_of (main os IS_WINDOWS sched w))
    = numbers_from 0 (length files)
  /\ closing_bars (trace_of (main os IS_WINDOWS sched w))
     = match files with [] => [] | _ :: _ => [Z.of_nat (length files)] end.
Proof.
  destruct (main_run_kinds os IS_WINDOWS sched w) as (_ & H1 & H2 & _).
  split; assumption.
Qed.

(** X14. The k-th result line shows the result of the k-th task to
    finish: its number k, the file name (cut to 40 characters and two
    dots when longer), the success mark, the elapsed time, and for a
    failure only, the first 50 characters of the error. *)
Theorem result_lines_show_results
    {World : Type} (os : OS World) IS_WINDOWS (sched : Schedule World) w :
  shown_lines (trace_of (main os IS_WINDOWS sched w))
  = map (fun '(i, result) => line_of_result i result)
        (combine (numbers_from 0 (length (found_files os IS_WINDOWS w)))
                 (returned_results
                    (as_completed (picks sched)
                       (futures_of os IS_WINDOWS sched w)))).
Proof.
  destruct (main_run_kinds os IS_WINDOWS sched w) as (_ & _ & _ & H & _).
  exact H.
Qed.

(** X15. A run that found files writes one report; its success count is
    the number of tasks that returned a success, its failure count the
    number that returned a failure, and the two add up to the number of
    files.  A run that found none writes no report. *)
Theorem report_counts
    {World : Type} (os : OS World) IS_WINDOWS (sched : Schedule World) w :
  let files := found_files os IS_WINDOWS w in
  let futures := futures_of os IS_WINDOWS sched w in
  reports (trace_of (main os IS_WINDOWS sched w))
  = match files with
    | [] => []
    | _ :: _ => [(Z.of_nat (length (filter task_succeeded futures)),
                  Z.of_nat (length (failed_results futures)))]
    end
  /\ (length (filter task_succeeded futures) + length (failed_results futures)
      = length files)%nat.
Proof.
  destruct (main_run_kinds os IS_WINDOWS sched w) as (_ & _ & _ & _ & H & _).
  split; [exact H|].
  unfold futures_of. rewrite succeeded_or_failed, length_map.
  - apply PoolFacts.submit_all_length.
  - apply PoolFacts.submit_all_returned.
Qed.

(** X16. The failure list of a run has one entry, name and full error
    message, for each task that returned a failure, in the order the tasks
    were submitted (not the order they finished); its header is written
    exactly when there is such a task. *)
Theorem failure_list_in_main
    {World : Type} (os : OS World) IS_WINDOWS (sched : Schedule World) w :
  let futures := futures_of os IS_WINDOWS sched w in
  failure_entries (trace_of (main os IS_WINDOWS sched w))
    = map name_and_message (failed_results futures)
  /\ failure_headers (trace_of (main os IS_WINDOWS sched w))
     = match failed_results futures with [] => [] | _ :: _ => [tt] end.
Proof.
  destruct (main_run_kinds os IS_WINDOWS sched w) as (_ & _ & _ & _ & _ & H1 & H2).
  split; assumption.
Qed.

(** X17. When the converter cannot be run (every [subprocess.run]
    raises), a run that found N files still ends with its report: 0
    successes and N failures, and N entries in the failure list. *)
Theorem all_tasks_fail_without_converter
    {World : Type} (os : OS World) IS_WINDOWS (sched : Schedule World) w :
  (forall args w', exists e, fst (subprocess_run os args w') = inl e) ->
  let files := found_files os IS_WINDOWS w in
  reports (trace_of (main os IS_WINDOWS sched w))
    = match files with
      | [] => []
      | _ :: _ => [(0%Z, Z.of_nat (length files))]
      end
  /\ length (failure_entries (trace_of (main os IS_WINDOWS sched w)))
     = length files.
Proof.
  intros Hrun files.
  destruct (main_run_kinds os IS_WINDOWS sched w) as (_ & _ & _ & _ & H & He & _).
  pose proof (@succeeded_or_failed (futures_of os IS_WINDOWS sched w)
                (PoolFacts.submit_all_returned os sched 0 _)) as Hsum.
  pose proof (no_task_succeeds os sched 0 (found_files os IS_WINDOWS w) Hrun)
    as Hnone.
  apply filter_none in Hnone. fold (futures_of os IS_WINDOWS sched w) in Hnone.
  rewrite Hnone in H, Hsum. cbn [length] in H, Hsum.
  assert (Hlen : length (futures_of os IS_WINDOWS sched w) = length files).
  { unfold futures_of. rewrite length_map. apply PoolFacts.submit_all_length. }
  rewrite He, length_map. rewrite H. split; [|lia].
  fold files. destruct files; [reflexivity|]. repeat f_equal. lia.
Qed.

Lemma all_tasks_fail_without_converter_witness :
  reports (trace_of (main (Toy.toy_os Toy.no_converter) true
                          (Toy.toy_schedule []) 0%Z))
  = [(0%Z, 1%Z)].
Proof.
  exact (proj1 (@all_tasks_fail_without_converter _ (Toy.toy_os Toy.no_converter)
                  true (Toy.toy_schedule []) 0%Z
                  (fun _ _ => ex_intro _ _ eq_refl))).
Defined.

(** X18. When every file is still there and the converter always exits
    with status 0, a run that found N files reports N successes and 0
    failures and writes no failure list, header included. *)
Theorem all_tasks_succeed
    {World : Type} (os : OS World) IS_WINDOWS (sched : Schedule World) w :
  (forall path w', fst (os_path_exists os path w') = true) ->
  (forall args w', exists process,
      fst (subprocess_run os args w') = inr process
      /\ returncode process = 0%Z) ->
  let files := found_files os IS_WINDOWS w in
  reports (trace_of (main os IS_WINDOWS sched w))
    = match files with
      | [] => []
      | _ :: _ => [(Z.of_nat (length files), 0%Z)]
      end
  /\ failure_entries (trace_of (main os IS_WINDOWS sched w)) = []
  /\ failure_headers (trace_of (main os IS_WINDOWS sched w)) = [].
Proof.
  intros Hex Hrun files.
  destruct (main_run_kinds os IS_WINDOWS sched w)
    as (_ & _ & _ & _ & H & He & Hh).
  pose proof (@succeeded_or_failed (futures_of os IS_WINDOWS sched w)
                (PoolFacts.submit_all_returned os sched 0 _)) as Hsum.
  pose proof (every_task_succeeds os sched 0 (found_files os IS_WINDOWS w)
                Hex Hrun) as Hall.
  apply filter_all in Hall. fold (futures_of os IS_WINDOWS sched w) in Hall.
  rewrite Hall in H, Hsum.
  assert (Hlen : length (futures_of os IS_WINDOWS sched w) = length files).
  { unfold futures_of. rewrite length_map. apply PoolFacts.submit_all_length. }
  assert (Hnil : failed_results (futures_of os IS_WINDOWS sched w) = []).
  { destruct (failed_results (futures_of os IS_WINDOWS sched w));
      [reflexivity|simpl in Hsum; lia]. }
  rewrite He, Hh, H, Hnil, Hlen. repeat split; reflexivity.
Qed.

Lemma all_tasks_succeed_witness :
  reports (trace_of (main (Toy.toy_os healthy_setup) false
                          (Toy.toy_schedule [1]%nat) 0%Z))
  = [(2%Z, 0%Z)].
Proof.
  exact (proj1 (@all_tasks_succeed _ (Toy.toy_os healthy_setup) false
                  (Toy.toy_schedule [1]%nat) 0%Z
                  (fun _ _ => eq_refl)
                  (fun _ _ => ex_intro _ _ (conj eq_refl eq_refl)))).
Defined.

(** X19. The counts of the report and the failure list do not depend on
    the order in which the tasks finish: two runs that differ in that
    order only write the same report counts and the same failure list. *)
Theorem counts_do_not_depend_on_order
    {World : Type} (os : OS World) IS_WINDOWS (sched : Schedule World)
    (other_picks : list nat) w :
  let reordered :=
    mkSchedule other_picks (task_world sched) (joined_world sched) in
  reports (trace_of (main os IS_WINDOWS reordered w))
    = reports (trace_of (main os IS_WINDOWS sched w))
  /\ failure_entries (trace_of (main os IS_WINDOWS reordered w))
     = failure_entries (trace_of (main os IS_WINDOWS sched w)).
Proof.
  intros reordered.
  destruct (main_run_kinds os IS_WINDOWS sched w) as (_ & _ & _ & _ & H & He & _).
  destruct (main_run_kinds os IS_WINDOWS reordered w)
    as (_ & _ & _ & _ & H' & He' & _).
  assert (Hf : futures_of os IS_WINDOWS reordered w
               = futures_of os IS_WINDOWS sched w).
  { unfold futures_of. f_equal. apply submit_all_ext. reflexivity. }
  rewrite H, H', He, He', Hf. split; reflexivity.
Qed.

(** * The failure list and the final statistics of a run *)

Section ReportFacts.
Context {World : Type} (os : OS World).
Variable IS_WINDOWS : bool.

Local Open Scope Z_scope.

(** Among futures that all returned a dictionary, the failed
    dictionaries are those of the tasks that did not succeed. *)
Lemma failed_results_count futures :
  Forall (fun future => exists result, fut_outcome future = inr (Some result))
         futures ->
  length (failed_results futures)
  = length (filter (fun future => negb (task_succeeded future)) futures).
Proof.
  unfold failed_results, returned_results.
  induction 1 as [|future futures [result Hr] _ IH]; [reflexivity|].
  cbn [filter flat_map]. unfold task_succeeded at 1. rewrite Hr.
  cbn [app filter]. destruct (success result); cbn [negb length]; congruence.
Qed.

Lemma fold_add_float (values : list pynum) :
  forall x,
  Forall (fun value => exists t, value = PFloat t) values ->
  exists y, fold_left PyNum.add values (PFloat x) = PFloat y.
Proof.
  induction values as [|value values IH]; intros x Hall;
    [exists x; reflexivity|].
  inversion Hall as [|? ? [t Ht] Hall']; subst.
  cbn [fold_left PyNum.add]. apply IH, Hall'.
Qed.

(** The time accumulated over results that all carry a float is a float. *)
Lemma cumulative_time_float completed :
  completed <> [] ->
  Forall (fun future => exists t, consumed_time future = PFloat t) completed ->
  exists cumulative, cumulative_time completed = PFloat cumulative.
Proof.
  intros Hne Hall. unfold cumulative_time.
  destruct completed as [|future completed]; [contradiction|].
  inversion Hall as [|? ? [t Ht] Hall']; subst.
  cbn [map fold_left]. rewrite Ht. cbn [PyNum.add].
  apply fold_add_float. apply Forall_map. exact Hall'.
Qed.

(** Every result of a task of [main] carries a float as its time. *)
Lemma submitted_times_float sched k files :
  Forall (fun future => exists t, consumed_time future = PFloat t)
         (map fst (submit_all os sched k files)).
Proof.
  apply (submit_all_outcomes os
           (fun outcome => exists t,
              match outcome with
              | inr (Some result) => time result
              | _ => PInt 0
              end = PFloat t)).
  intros file w. destruct (convert_returns os file w) as [ok [msg H]].
  rewrite H. cbn [fst time]. unfold elapsed. eauto.
Qed.

(** The report of a run that found files, field by field. *)
Lemma main_report sched w files w2 :
  get_otf_files os font_dir (set_console_utf8 os IS_WINDOWS w) = (inr files, w2) ->
  files <> [] ->
  let total_files := Z.of_nat (length files) in
  let futures := map fst (submit_all os sched 0 files) in
  let completed := as_completed (picks sched) futures in
  let succeeded := Z.of_nat (length (filter task_succeeded futures)) in
  let clock_before := snd (datetime_now os (snd (os_cpu_count os w2))) in
  let start_total_time := fst (time_time os clock_before) in
  let end_total_time := fst (time_time os (joined_world sched)) in
  let total_duration := fsub end_total_time start_total_time in
  exists cumulative,
    cumulative_time completed = PFloat cumulative
    /\ report_events (trace_of (main os IS_WINDOWS sched w)) =
       [EvReport succeeded (total_files - succeeded) total_duration
          (PFloat (fdiv cumulative (float_of_Z total_files)))
          (if fltb fzero total_duration
           then PFloat (fdiv (float_of_Z succeeded) total_duration)
           else PInt 0)
          (fst (datetime_now os (snd (time_time os (joined_world sched)))))].
Proof.
  intros Hget Hne. intros.
  destruct (main_dispatching os IS_WINDOWS sched w Hget Hne)
    as (stats & out & _ & _ & Hsf & Hs & _ & Hn & _ & Hmain).
  fold futures in Hs. fold total_files in Hsf, Hn.
  assert (Hperm : Permutation completed futures)
    by apply PoolFacts.as_completed_perm.
  assert (Hnotnil : completed <> []).
  { intros E. apply Permutation_length in Hperm. rewrite E in Hperm.
    unfold futures in Hperm.
    rewrite length_map, PoolFacts.submit_all_length in Hperm.
    destruct files; [contradiction|discriminate]. }
  destruct (@cumulative_time_float completed Hnotnil) as [cumulative Hcum].
  { apply (Permutation_Forall (Permutation_sym Hperm)).
    apply submitted_times_float. }
  exists cumulative. split; [exact Hcum|].
  rewrite Hmain. unfold trace_of, report_events. cbn [fst snd].
  pose proof Hcum as Hcum'. unfold completed, futures in Hcum'.
  rewrite Hcum'.
  cbn [filter is_report]. rewrite !filter_app. cbn [filter is_report].
  rewrite !filter_app. cbn [filter is_report].
  rewrite (@filter_none _ is_report (map EvSubmitted files)).
  2:{ apply Forall_forall. intros ev Hev. apply in_map_iff in Hev.
      destruct Hev as [f [<- _]]. reflexivity. }
  rewrite (@filter_none _ is_report out).
  2:{ eapply Forall_impl; [|exact Hn]. intros ev Hev.
      destruct ev; try contradiction; reflexivity. }
  rewrite (@filter_none _ is_report (failure_listing _ _)).
  2:{ apply Forall_forall. intros ev Hev. apply failure_listing_events in Hev.
      destruct Hev as [->|(name & message & ->)]; reflexivity. }
  cbn [app]. rewrite Hs.
  replace (failed_count stats) with (total_files - succeeded)
    by (subst succeeded; lia).
  reflexivity.
Qed.

End ReportFacts.

(** C4. In a run of [main] every task returns a dictionary (none fails
    by an exception that escaped it), and when at least one task failed
    the failure list printed at the end has the header and, for each
    failed task, its file name and error message exactly once, in
    submission order; the number of entries is the failure count of the
    report. *)
Theorem failure_listing_lists_every_failed_task
    {World : Type} (os : OS World) IS_WINDOWS (sched : Schedule World) w :
  let futures := futures_of os IS_WINDOWS sched w in
  let trace := trace_of (main os IS_WINDOWS sched w) in
  failed_results futures <> [] ->
  Forall (fun future => exists result, fut_outcome future = inr (Some result))
         futures
  /\ failure_headers trace = [tt]
  /\ failure_entries trace = map name_and_message (failed_results futures)
  /\ length (failure_entries trace)
     = length (filter (fun future => negb (task_succeeded future)) futures)
  /\ reports trace =
     [(Z.of_nat (length (filter task_succeeded futures)),
       Z.of_nat (length (failure_entries trace)))].
Proof.
  intros futures trace Hfailed.
  assert (Hret : Forall (fun future => exists result,
                           fut_outcome future = inr (Some result)) futures)
    by apply PoolFacts.submit_all_returned.
  destruct (main_run_kinds os IS_WINDOWS sched w)
    as (_ & _ & _ & _ & Hrep & Hent & Hhead).
  fold futures trace in Hrep, Hent, Hhead.
  split; [exact Hret|].
  split; [rewrite Hhead; destruct (failed_results futures);
          [contradiction|reflexivity]|].
  split; [exact Hent|].
  split; [rewrite Hent, length_map; apply failed_results_count, Hret|].
  rewrite Hrep, Hent, length_map.
  destruct (found_files os IS_WINDOWS w) eqn:E; [|reflexivity].
  exfalso. apply Hfailed. unfold futures, futures_of. rewrite E. reflexivity.
Qed.

(** Three fonts, the third of which fails: the list has its one entry. *)
Lemma failure_listing_lists_every_failed_task_witness :
  failure_entries (trace_of (main (Toy.toy_os Toy.three_fonts) true
                                  (Toy.toy_schedule [2; 0]%nat) 0%Z))
  = [(utf8 "c.otf", utf8 "bad glyph table")].
Proof.
  exact (proj1 (proj2 (proj2
           (@failure_listing_lists_every_failed_task _
              (Toy.toy_os Toy.three_fonts) true (Toy.toy_schedule [2; 0]%nat)
              0%Z ltac:(discriminate))))).
Defined.

(** C6. The report of a run that found files carries: the number of
    tasks that succeeded; the duration, which is the clock read after the
    pool has shut down minus the clock read before it was created; the
    average, which is the time accumulated over the results in the order
    they were collected divided by the number of files; and the
    throughput, which is the success count divided by the duration when
    the duration is positive and the integer 0 otherwise.  With no file
    the average is the integer 0, and with a duration equal to zero the
    throughput is the integer 0. *)
Theorem final_statistics :
  (forall (World : Type) (os : OS World) IS_WINDOWS (sched : Schedule World)
          w files w2,
     get_otf_files os font_dir (set_console_utf8 os IS_WINDOWS w)
       = (inr files, w2) ->
     files <> [] ->
     let total_files := Z.of_nat (length files) in
     let futures := map fst (submit_all os sched 0 files) in
     let completed := as_completed (picks sched) futures in
     let succeeded := Z.of_nat (length (filter task_succeeded futures)) in
     let clock_before := snd (datetime_now os (snd (os_cpu_count os w2))) in
     let start_total_time := fst (time_time os clock_before) in
     let end_total_time := fst (time_time os (joined_world sched)) in
     let total_duration := fsub end_total_time start_total_time in
     exists cumulative,
       cumulative_time completed = PFloat cumulative
       /\ report_events (trace_of (main os IS_WINDOWS sched w)) =
          [EvReport succeeded (total_files - succeeded)%Z total_duration
             (PFloat (fdiv cumulative (float_of_Z total_files)))
             (if fltb fzero total_duration
              then PFloat (fdiv (float_of_Z succeeded) total_duration)
              else PInt 0)
             (fst (datetime_now os (snd (time_time os (joined_world sched)))))]
       /\ (feqb total_duration fzero = true ->
           files_per_second_of succeeded total_duration = inr (PInt 0)))
  /\ (forall total_processing_time,
        avg_time_per_file_of total_processing_time 0 = inr (PInt 0))
  /\ (forall success_count total_duration,
        feqb total_duration fzero = true ->
        files_per_second_of success_count total_duration = inr (PInt 0)).
Proof.
  assert (Hzero : forall s d, feqb d fzero = true ->
                              files_per_second_of s d = inr (PInt 0)).
  { intros s d H. rewrite files_per_second_defined.
    rewrite (FloatFacts.feqb_zero_not_gt _ H). reflexivity. }
  split; [|split; [reflexivity|exact Hzero]].
  intros World os IS_WINDOWS sched w files w2 Hget Hne. intros.
  destruct (main_report os IS_WINDOWS sched w Hget Hne) as [cumulative [Hc Hr]].
  exists cumulative. split; [exact Hc|]. split; [exact Hr|apply Hzero].
Qed.

(** Three fonts of three seconds each, two of them converted, in a run of
    a thousand seconds. *)
Lemma final_statistics_witness :
  exists cumulative,
    cumulative_time
      (as_completed [2; 0]%nat
         (map fst (submit_all (Toy.toy_os Toy.three_fonts)
                     (Toy.toy_schedule [2; 0]%nat) 0 Toy.three_paths)))
    = PFloat cumulative
    /\ report_events (trace_of (main (Toy.toy_os Toy.three_fonts) true
                                     (Toy.toy_schedule [2; 0]%nat) 0%Z))
       = [EvReport 2 1 (fsub (float_of_Z 1000) (float_of_Z 0))
            (PFloat (fdiv cumulative (float_of_Z 3)))
            (PFloat (fdiv (float_of_Z 2)
                          (fsub (float_of_Z 1000) (float_of_Z 0))))
            (utf8 "2024-01-01 00:00:00")].
Proof.
  destruct (proj1 final_statistics _ (Toy.toy_os Toy.three_fonts) true
              (Toy.toy_schedule [2; 0]%nat) 0%Z Toy.three_paths 0%Z
              eq_refl ltac:(discriminate))
    as [cumulative [Hc [Hr _]]].
  exists cumulative. split; [exact Hc|exact Hr].
Defined.
